(** * IVR conversational backend: a shallow embedding of [backend.py]

    The development follows the layout of the Python module: string
    helpers standing for the [str] methods the code calls, the in-memory
    state ([active_calls], [call_history]), the static [MENU_STRUCTURE],
    the rule based NLU, the intent to action mapping, the conversational
    handler, the DTMF endpoint and the STT webhook.

    Conventions of the embedding:
    - text is [string] (a sequence of bytes); in [PyStr] the [str] methods
      [lower], [strip], [isdigit] and the regular expression [\d+] are
      modelled on ASCII text, where they coincide with Python's Unicode
      versions; [Uni] has the classifier on texts of any characters, with
      Python's Unicode tables as parameters, and the ASCII model is shown
      to be its instance at the ASCII tables;
    - [uuid.uuid4()] and [datetime.utcnow().isoformat()] are inputs of the
      operations that call them;
    - a function that raises returns [Raise e] together with the state it
      leaves behind;
    - [asyncio.create_task] records a task; the tasks of an endpoint run
      after it returned, in the order they were created. [dtmf_endpoint]
      is the endpoint called where an event loop is running;
      [dtmf_endpoint_on] makes the loop explicit, and without one (the
      plain [def] route as the server runs it) [create_task] raises. *)

From Stdlib Require Import ZArith QArith.QArith_base String Ascii List.
From stdpp Require Import gmap strings list fin_maps pretty.

Open Scope string_scope.

(** ** Python [str] helpers *)

Module PyStr.

Definition is_upper (c : ascii) : bool :=
  let n := nat_of_ascii c in (65 <=? n)%nat && (n <=? 90)%nat.

Definition lower_char (c : ascii) : ascii :=
  if is_upper c then ascii_of_nat (nat_of_ascii c + 32) else c.

(** [s.lower()] *)
Fixpoint lower (s : string) : string :=
  match s with
  | EmptyString => EmptyString
  | String c s' => String (lower_char c) (lower s')
  end.

(** The characters [str.strip()] removes: tab, line feed, vertical tab, form
    feed, carriage return, the four separators 0x1c-0x1f and the space. *)
Definition is_space (c : ascii) : bool :=
  let n := nat_of_ascii c in
  ((9 <=? n)%nat && (n <=? 13)%nat) || ((28 <=? n)%nat && (n <=? 32)%nat).

Fixpoint lstrip (s : string) : string :=
  match s with
  | EmptyString => EmptyString
  | String c s' => if is_space c then lstrip s' else s
  end.

Fixpoint rstrip (s : string) : string :=
  match s with
  | EmptyString => EmptyString
  | String c s' =>
      match rstrip s' with
      | EmptyString => if is_space c then EmptyString else String c EmptyString
      | r => String c r
      end
  end.

(** [s.strip()] *)
Definition strip (s : string) : string := rstrip (lstrip s).

(** [x in t] on two strings: [x] occurs in [t] as a substring. *)
Fixpoint contains (x t : string) : bool :=
  String.prefix x t ||
  match t with
  | EmptyString => false
  | String _ t' => contains x t'
  end.

Definition is_digit (c : ascii) : bool :=
  let n := nat_of_ascii c in (48 <=? n)%nat && (n <=? 57)%nat.

Fixpoint all_digits (s : string) : bool :=
  match s with
  | EmptyString => true
  | String c s' => is_digit c && all_digits s'
  end.

(** [s.isdigit()]: at least one character and all of them digits. *)
Definition isdigit (s : string) : bool :=
  match s with
  | EmptyString => false
  | _ => all_digits s
  end.

(** Truth value of a string in a condition: non-empty. *)
Definition truthy (s : string) : bool :=
  match s with EmptyString => false | _ => true end.

(** [re.findall(r"\d+", s)]: the maximal runs of digits, left to right.
    [cur] is the run being read. *)
Definition flush (cur : string) : list string :=
  match cur with EmptyString => [] | _ => [cur] end.

Fixpoint findall_digits_go (cur s : string) : list string :=
  match s with
  | EmptyString => flush cur
  | String c s' =>
      if is_digit c then findall_digits_go (cur +:+ String c EmptyString) s'
      else flush cur ++ findall_digits_go EmptyString s'
  end.

Definition findall_digits (s : string) : list string :=
  findall_digits_go EmptyString s.

End PyStr.

(** ** Data model *)

(** The values the code writes to a session's ["status"] are ["active"]
    and ["transferring"]; [Ended] is the third value of the specification's
    enumeration, which the code never writes. *)
Inductive Status := Active | Transferring | Ended.

(** What [request.json()] can return. An object is the list of its members
    in document order, with distinct keys. *)
#[warnings="-register-all"] Inductive Json :=
| JNull
| JBool (b : bool)
| JNum (z : Z)
| JStr (s : string)
| JList (l : list Json)
| JDict (members : list (string * Json)).

(** One entry of [nlp_context["history"]]. The text is the transcript
    object as it was handed to the handler: a string, or, from the STT
    webhook, any other value parsed from the body. *)
Record Turn := { turn_from : string; turn_text : Json; turn_ts : string }.

(** The dictionary an NLU returns. A value of [entities] may be [None]. *)
Record NluResult := {
  intent : string;
  confidence : Q;
  entities : gmap string (option string)
}.

(** [entities.get(name)]: [None] for a missing key and for a key bound to
    [None] alike. *)
Definition entity_get (name : string) (r : NluResult) : option string :=
  match entities r !! name with
  | Some v => v
  | None => None
  end.

Record NlpContext := {
  history : list Turn;
  slots : gmap string string;
  last_nlu : option NluResult
}.

Record Session := {
  call_id : string;
  caller : string;
  created_at : string;
  current_menu : string;
  menu_path : list string;
  conv_mode : bool;
  nlp_context : NlpContext;
  pnr_buffer : string;
  status : Status;
  ended_at : option string
}.

(** Assignments to one key of a session. *)
Definition set_current_menu (m : string) (s : Session) : Session :=
  {| call_id := call_id s; caller := caller s; created_at := created_at s;
     current_menu := m; menu_path := menu_path s; conv_mode := conv_mode s;
     nlp_context := nlp_context s; pnr_buffer := pnr_buffer s;
     status := status s; ended_at := ended_at s |}.

Definition set_menu_path (p : list string) (s : Session) : Session :=
  {| call_id := call_id s; caller := caller s; created_at := created_at s;
     current_menu := current_menu s; menu_path := p; conv_mode := conv_mode s;
     nlp_context := nlp_context s; pnr_buffer := pnr_buffer s;
     status := status s; ended_at := ended_at s |}.

Definition set_nlp_context (c : NlpContext) (s : Session) : Session :=
  {| call_id := call_id s; caller := caller s; created_at := created_at s;
     current_menu := current_menu s; menu_path := menu_path s;
     conv_mode := conv_mode s; nlp_context := c; pnr_buffer := pnr_buffer s;
     status := status s; ended_at := ended_at s |}.

Definition set_pnr_buffer (b : string) (s : Session) : Session :=
  {| call_id := call_id s; caller := caller s; created_at := created_at s;
     current_menu := current_menu s; menu_path := menu_path s;
     conv_mode := conv_mode s; nlp_context := nlp_context s; pnr_buffer := b;
     status := status s; ended_at := ended_at s |}.

Definition set_status (st : Status) (s : Session) : Session :=
  {| call_id := call_id s; caller := caller s; created_at := created_at s;
     current_menu := current_menu s; menu_path := menu_path s;
     conv_mode := conv_mode s; nlp_context := nlp_context s;
     pnr_buffer := pnr_buffer s; status := st; ended_at := ended_at s |}.

Definition set_ended_at (t : string) (s : Session) : Session :=
  {| call_id := call_id s; caller := caller s; created_at := created_at s;
     current_menu := current_menu s; menu_path := menu_path s;
     conv_mode := conv_mode s; nlp_context := nlp_context s;
     pnr_buffer := pnr_buffer s; status := status s; ended_at := Some t |}.

(** The two module level registries. *)
Record World := {
  active_calls : gmap string Session;
  call_history : list Session
}.

Definition empty_world : World := {| active_calls := ∅; call_history := [] |}.

(** A mutation of the session object registered under [id]. *)
Definition store (id : string) (s : Session) (w : World) : World :=
  {| active_calls := <[id := s]> (active_calls w);
     call_history := call_history w |}.

(** ** Errors, provider calls *)

(** The [detail] of an [HTTPException]: a fixed text, or a text followed by
    the list of keys of the payload. *)
Inductive Detail :=
| Msg (text : string)
| MsgKeys (text : string) (keys : list string).

Inductive Error :=
| HTTPException (status_code : nat) (detail : Detail)
| ValueError (msg : string)
| KeyError (key : string)
| AttributeError (msg : string)
| TypeError (msg : string)
| RuntimeError (msg : string).

Inductive Result (A : Type) :=
| Return (a : A)
| Raise (e : Error).
Arguments Return {A} a.
Arguments Raise {A} e.

(** The two provider placeholders that act on a call. *)
Inductive ProviderCall :=
| PlayTts (id text : string)
| HangupCall (id : string).

(** ** Legacy IVR menu *)

Record MenuOption := {
  opt_action : string;
  opt_target : option string;
  opt_message : option string
}.

Record MenuNode := {
  prompt : string;
  options : gmap string MenuOption
}.

Definition MENU_STRUCTURE : gmap string MenuNode :=
  {[ "main" :=
       {| prompt := "Welcome to Air India. Press 1 for Booking. Press 2 for Flight Status. Press 3 for Agent.";
          options :=
            {[ "1" := {| opt_action := "goto_menu"; opt_target := Some "booking";
                         opt_message := Some "Going to Booking." |};
               "2" := {| opt_action := "goto_menu"; opt_target := Some "flight_status";
                         opt_message := Some "Going to Flight Status." |};
               "3" := {| opt_action := "transfer_agent"; opt_target := None;
                         opt_message := Some "Transferring to agent." |} ]} |};
     "booking" :=
       {| prompt := "Booking menu: Press 1 Domestic. Press 2 International. Press 0 Back.";
          options :=
            {[ "1" := {| opt_action := "start_booking_domestic"; opt_target := None;
                         opt_message := Some "Domestic booking selected." |};
               "2" := {| opt_action := "start_booking_international"; opt_target := None;
                         opt_message := Some "International booking selected." |};
               "0" := {| opt_action := "goto_menu"; opt_target := Some "main";
                         opt_message := Some "Returning to main menu." |} ]} |};
     "flight_status" :=
       {| prompt := "Please speak or enter 6-digit PNR. Press 0 Back.";
          options :=
            {[ "0" := {| opt_action := "goto_menu"; opt_target := Some "main";
                         opt_message := Some "Returning to main menu." |} ]} |} ]}.

(** [MENU_STRUCTURE.get(menu, {}).get("options", {}).get(digit)] *)
Definition menu_option (menu digit : string) : option MenuOption :=
  match MENU_STRUCTURE !! menu with
  | Some node => options node !! digit
  | None => None
  end.

(** ** Session helpers *)

(** [make_call_session(caller)]; [new_id] is the value of [uuid.uuid4()] and
    [now] that of [datetime.utcnow().isoformat()]. *)
Definition make_call_session (new_id now : string) (caller : string) (w : World)
  : string * World :=
  (new_id,
   store new_id
     {| call_id := new_id; caller := caller; created_at := now;
        current_menu := "main"; menu_path := ["main"]; conv_mode := true;
        nlp_context := {| history := []; slots := ∅; last_nlu := None |};
        pnr_buffer := ""; status := Active; ended_at := None |} w).

(** [cleanup_call(call_id)]: pop the session, stamp it and append it to the
    history. *)
Definition cleanup_call (now : string) (id : string) (w : World)
  : option Session * World :=
  match active_calls w !! id with
  | Some c =>
      let c := set_ended_at now c in
      (Some c, {| active_calls := delete id (active_calls w);
                  call_history := call_history w ++ [c] |})
  | None => (None, {| active_calls := delete id (active_calls w);
                      call_history := call_history w |})
  end.

(** ** NLU: rule based, with the LLM hook *)

(** [any(x in t for x in keywords)] *)
Definition any_in (keywords : list string) (t : string) : bool :=
  existsb (fun x => PyStr.contains x t) keywords.

Definition rule_based_nlu (text : string) : NluResult :=
  let t := PyStr.strip (PyStr.lower text) in
  if any_in ["book"; "booking"; "reserve"; "ticket"] t then
    {| intent := "booking_enquiry"; confidence := 9 # 10; entities := ∅ |}
  else if any_in ["pnr"; "status"; "flight status"; "where is my flight"; "flight"] t then
    let digits := PyStr.findall_digits t in
    let pnr := find (fun d => (String.length d =? 6)%nat) digits in
    {| intent := "flight_status"; confidence := 85 # 100;
       entities := {[ "pnr" := pnr ]} |}
  else if any_in ["agent"; "human"; "representative"; "operator"] t then
    {| intent := "agent_transfer"; confidence := 95 # 100; entities := ∅ |}
  else if any_in ["hi"; "hello"; "hey"; "good morning"; "good evening"] t then
    {| intent := "greeting"; confidence := 8 # 10; entities := ∅ |}
  else if any_in ["bye"; "goodbye"; "thanks"; "thank you"] t then
    {| intent := "end_call"; confidence := 95 # 100; entities := ∅ |}
  else
    {| intent := "unknown"; confidence := 4 # 10; entities := ∅ |}.

(** The placeholder falls back to the rules. *)
Definition llm_nlu_parse (text : string) : NluResult := rule_based_nlu text.

Definition LLM_ENABLED : bool := false.

(** [LLM_API_KEY] is read from the environment. *)
Definition nlu_parse (LLM_API_KEY : option string) (text : string) : NluResult :=
  if LLM_ENABLED && (match LLM_API_KEY with Some k => PyStr.truthy k | None => false end)
  then llm_nlu_parse text
  else rule_based_nlu text.

(** ** Dialog manager and intent mapping *)

Record IntentMapping := {
  map_action : string;
  map_target_menu : option string;
  map_response : string
}.

Definition unknown_mapping : IntentMapping :=
  {| map_action := "reprompt"; map_target_menu := None;
     map_response := "Sorry, I didn't understand. Could you please repeat?" |}.

Definition INTENT_ACTION_MAP : gmap string IntentMapping :=
  {[ "booking_enquiry" :=
       {| map_action := "goto_menu"; map_target_menu := Some "booking";
          map_response := "Sure — I can help with your booking. Domestic or international?" |};
     "flight_status" :=
       {| map_action := "flight_status_check"; map_target_menu := Some "flight_status";
          map_response := "Please tell me your 6-digit PNR." |};
     "agent_transfer" :=
       {| map_action := "transfer_agent"; map_target_menu := None;
          map_response := "I'll transfer you to an agent now." |};
     "greeting" :=
       {| map_action := "none"; map_target_menu := None;
          map_response := "Hello! How can I help you today?" |};
     "end_call" :=
       {| map_action := "end_call"; map_target_menu := None;
          map_response := "Thanks for calling. Goodbye!" |};
     "unknown" := unknown_mapping ]}.

(** The dictionaries [map_intent_to_action] builds, one constructor per
    value of their ["action"] key: ["goto_menu"], ["ask_for_pnr"],
    ["speak"], ["speak_and_hangup"], ["transfer_agent"], ["reprompt"]. *)
Inductive Action :=
| GotoMenu (target_menu response : string)
| AskForPnr (response : string)
| Speak (response : string)
| SpeakAndHangup (response : string)
| TransferAgent (response : string)
| Reprompt (response : string).

Definition action_response (a : Action) : string :=
  match a with
  | GotoMenu _ r | AskForPnr r | Speak r | SpeakAndHangup r
  | TransferAgent r | Reprompt r => r
  end.

(** The mock lookup of the inline flight status answer. *)
Definition pnr_confirmation (pnr : string) : string :=
  "PNR " +:+ pnr +:+ " is confirmed. Flight " +:+ "AI101" +:+ " from " +:+
  "Mumbai-Delhi" +:+ " is " +:+ "Confirmed" +:+ ".".

Definition map_intent_to_action (nlu_result : NluResult) (call_session : Session)
  : Action :=
  let intent := intent nlu_result in
  let mapping := default unknown_mapping (INTENT_ACTION_MAP !! intent) in
  if intent =? "flight_status" then
    match entity_get "pnr" nlu_result with
    | Some pnr =>
        if PyStr.truthy pnr then SpeakAndHangup (pnr_confirmation pnr)
        else AskForPnr (map_response mapping)
    | None => AskForPnr (map_response mapping)
    end
  else if intent =? "booking_enquiry" then GotoMenu "booking" (map_response mapping)
  else if intent =? "agent_transfer" then TransferAgent (map_response mapping)
  else if intent =? "end_call" then SpeakAndHangup (map_response mapping)
  else if intent =? "greeting" then Speak (map_response mapping)
  else Reprompt (map_response mapping).

(** [hangup_call(call_id)] *)
Definition hangup_call (now : string) (id : string) (w : World) : World :=
  snd (cleanup_call now id w).

(** ** Conversational handler *)

(** The dictionary [handle_transcribed_text] returns. *)
Record Outcome := {
  out_status : string;
  out_action : string;
  out_menu : option string;
  out_spoken : string
}.

Definition append_turn (transcript ts : string) (s : Session) : Session :=
  let c := nlp_context s in
  set_nlp_context
    {| history := history c ++ [{| turn_from := "user"; turn_text := JStr transcript; turn_ts := ts |}];
       slots := slots c; last_nlu := last_nlu c |} s.

Definition set_last_nlu (r : NluResult) (s : Session) : Session :=
  let c := nlp_context s in
  set_nlp_context {| history := history c; slots := slots c; last_nlu := Some r |} s.

Section Handler.

(** The classifier in use ([nlu_parse]); the handler does not depend on
    which one it is. *)
Variable nlu : string -> NluResult.

(** [handle_transcribed_text(call_id, transcript)] for a transcript that is
    a string ([handle_transcribed_value] below has the other objects the
    STT webhook can pass). [ts] is the time stamp
    of the turn, [now] the one [cleanup_call] reads if the call is hung up.
    The third component lists the provider calls made, in order. The
    branches of the source on an action other than the six of [Action] are
    not reached by any result of [map_intent_to_action]. *)
Definition handle_transcribed_text (ts now : string) (id transcript : string)
    (w : World) : Result Outcome * World * list ProviderCall :=
  match active_calls w !! id with
  | None => (Raise (ValueError "Unknown call_id"), w, [])
  | Some session =>
      let session := append_turn transcript ts session in
      let nlu_result := nlu transcript in
      let session := set_last_nlu nlu_result session in
      let action := map_intent_to_action nlu_result session in
      let resp_text := action_response action in
      match action with
      | GotoMenu target _ =>
          let session := set_current_menu target session in
          let session := set_menu_path (menu_path session ++ [target]) session in
          let menu_prompt :=
            match MENU_STRUCTURE !! target with
            | Some node => prompt node
            | None => resp_text
            end in
          (Return {| out_status := "ok"; out_action := "goto_menu";
                     out_menu := Some target; out_spoken := menu_prompt |},
           store id session w, [PlayTts id menu_prompt])
      | AskForPnr _ =>
          let session := set_current_menu "flight_status" session in
          (Return {| out_status := "ok"; out_action := "ask_for_pnr";
                     out_menu := None; out_spoken := resp_text |},
           store id session w, [PlayTts id resp_text])
      | Speak _ =>
          (Return {| out_status := "ok"; out_action := "speak";
                     out_menu := None; out_spoken := resp_text |},
           store id session w, [PlayTts id resp_text])
      | SpeakAndHangup _ =>
          (Return {| out_status := "ok"; out_action := "hangup";
                     out_menu := None; out_spoken := resp_text |},
           hangup_call now id (store id session w),
           [PlayTts id resp_text; HangupCall id])
      | TransferAgent _ =>
          let session := set_status Transferring session in
          (Return {| out_status := "ok"; out_action := "transfer";
                     out_menu := None; out_spoken := resp_text |},
           store id session w, [PlayTts id resp_text])
      | Reprompt _ =>
          (Return {| out_status := "ok"; out_action := "reprompt";
                     out_menu := None; out_spoken := resp_text |},
           store id session w, [PlayTts id resp_text])
      end
  end.

End Handler.

(** ** REST endpoints *)

(** [start_call(req)] *)
Definition start_call (new_id now : string) (caller : string) (w : World)
  : (string * string) * World :=
  let '(id, w') := make_call_session new_id now caller w in
  ((id, default "" (prompt <$> MENU_STRUCTURE !! "main")), w').

(** The dictionary [dtmf_endpoint] returns. *)
Record DtmfReply := {
  reply_action : option string;
  reply_message : string
}.

Definition message_only (m : string) : DtmfReply :=
  {| reply_action := None; reply_message := m |}.

(** [dtmf_endpoint(inp)], called where an event loop is running: the state
    the endpoint leaves and the tasks it created with
    [asyncio.create_task], in order. [dtmf_endpoint_on] below has the case
    without a loop. *)
Definition dtmf_endpoint (id digit : string) (w : World)
  : Result DtmfReply * World * list ProviderCall :=
  match active_calls w !! id with
  | None => (Raise (HTTPException 404 (Msg "Call not found")), w, [])
  | Some call =>
      let menu := current_menu call in
      if (menu =? "flight_status") && PyStr.isdigit digit then
        let call := set_pnr_buffer (pnr_buffer call +:+ digit) call in
        if (String.length (pnr_buffer call) =? 6)%nat then
          let pnr := pnr_buffer call in
          let call := set_pnr_buffer "" call in
          let response := "PNR " +:+ pnr +:+ " is confirmed. Flight AI101 is on time." in
          (Return {| reply_action := Some "pnr_lookup"; reply_message := response |},
           store id call w, [PlayTts id response; HangupCall id])
        else
          let remaining := (6 - Z.of_nat (String.length (pnr_buffer call)))%Z in
          (Return (message_only ("Received digit. " +:+ pretty remaining +:+ " digits to go.")),
           store id call w, [])
      else
        match menu_option menu digit with
        | None => (Return (message_only "Invalid choice, please try again."), w, [])
        | Some opt =>
            if opt_action opt =? "goto_menu" then
              match opt_target opt with
              | None => (Raise (KeyError "target"), w, [])
              | Some target =>
                  let call := set_current_menu target call in
                  let call := set_menu_path (menu_path call ++ [target]) call in
                  match MENU_STRUCTURE !! target with
                  | None => (Raise (KeyError target), store id call w, [])
                  | Some node =>
                      (Return (message_only (prompt node)), store id call w,
                       [PlayTts id (prompt node)])
                  end
              end
            else if opt_action opt =? "transfer_agent" then
              let call := set_status Transferring call in
              (Return (message_only "transfer initiated"), store id call w,
               [PlayTts id (default "Transferring" (opt_message opt))])
            else if opt_action opt =? "end_call" then
              (Return (message_only "call ended"), w,
               [PlayTts id (default "Goodbye" (opt_message opt)); HangupCall id])
            else (Return (message_only "Unhandled DTMF action"), w, [])
        end
  end.

(** Running a task the event loop was given. [play_tts_to_call] prints and
    sleeps; [hangup_call] cleans the call up. *)
Definition run_task (now : string) (w : World) (t : ProviderCall) : World :=
  match t with
  | PlayTts _ _ => w
  | HangupCall id => hangup_call now id w
  end.

Definition run_tasks (now : string) (tasks : list ProviderCall) (w : World) : World :=
  fold_left (run_task now) tasks w.

(** A DTMF request, where a loop is running, together with the tasks it
    left on the loop. *)
Definition handle_digit (now : string) (id digit : string) (w : World)
  : Result DtmfReply * World * list ProviderCall :=
  let '(r, w', tasks) := dtmf_endpoint id digit w in
  (r, run_tasks now tasks w', tasks).

(** [end_call(req)] *)
Definition end_call (now : string) (id : string) (w : World) : string * World :=
  ("call ended", snd (cleanup_call now id w)).

(** [get_history()] *)
Definition get_history (w : World) : list Session * nat :=
  (call_history w, size (active_calls w)).

(** [simulate_speech(inp)] *)
Definition simulate_speech (nlu : string -> NluResult) (ts now : string)
    (id transcript : string) (w : World)
  : Result Outcome * World * list ProviderCall :=
  match active_calls w !! id with
  | None => (Raise (HTTPException 404 (Msg "Call not active")), w, [])
  | Some _ => handle_transcribed_text nlu ts now id transcript w
  end.

(** ** STT webhook *)

Module Py.

(** Truth value of a parsed JSON value in a condition. *)
Definition truthy (v : Json) : bool :=
  match v with
  | JNull => false
  | JBool b => b
  | JNum z => negb (z =? 0)%Z
  | JStr s => PyStr.truthy s
  | JList l => match l with [] => false | _ => true end
  | JDict d => match d with [] => false | _ => true end
  end.

(** [key in d] *)
Definition has_key (key : string) (d : list (string * Json)) : bool :=
  existsb (fun kv => fst kv =? key) d.

(** [d.get(key)], with [None] read as [JNull]. *)
Definition get (key : string) (d : list (string * Json)) : Json :=
  match find (fun kv => fst kv =? key) d with
  | Some kv => snd kv
  | None => JNull
  end.

(** [a or b] *)
Definition or_else (a b : Json) : Json := if truthy a then a else b.

(** [list(d.keys())] *)
Definition keys (d : list (string * Json)) : list string := map fst d.

End Py.

(** The task [stt_callback] leaves on the loop:
    [handle_transcribed_text(call_id, transcript)]. *)
Record SttTask := { task_call_id : string; task_transcript : Json }.

(** The provider specific mapping of the payload of an object to
    [(call_id, transcript)]. *)
Definition stt_map_payload (d : list (string * Json)) : Result (Json * Json) :=
  let azure :=
    if Py.has_key "callConnectionId" d && Py.has_key "recognizeResult" d then
      match Py.get "recognizeResult" d with
      | JDict r => Return (Py.get "callConnectionId" d, Py.get "text" r)
      | JNull => Raise (AttributeError "'NoneType' object has no attribute 'get'")
      | JBool _ => Raise (AttributeError "'bool' object has no attribute 'get'")
      | JNum _ => Raise (AttributeError "'int' object has no attribute 'get'")
      | JStr _ => Raise (AttributeError "'str' object has no attribute 'get'")
      | JList _ => Raise (AttributeError "'list' object has no attribute 'get'")
      end
    else Return (JNull, JNull) in
  match azure with
  | Raise e => Raise e
  | Return (call_id, transcript) =>
      let '(call_id, transcript) :=
        if negb (Py.truthy transcript) && Py.has_key "CallSid" d
           && Py.has_key "SpeechResult" d
        then (Py.get "CallSid" d, Py.get "SpeechResult" d)
        else (call_id, transcript) in
      let transcript :=
        if negb (Py.truthy transcript)
        then Py.or_else (Py.get "transcript" d)
               (Py.or_else (Py.get "text" d) (Py.get "recognizedText" d))
        else transcript in
      Return (call_id, transcript)
  end.

(** [payload.keys()] in the diagnostic. *)
Definition payload_keys (payload : Json) : Result (list string) :=
  match payload with
  | JDict d => Return (Py.keys d)
  | JNull => Raise (AttributeError "'NoneType' object has no attribute 'keys'")
  | JBool _ => Raise (AttributeError "'bool' object has no attribute 'keys'")
  | JNum _ => Raise (AttributeError "'int' object has no attribute 'keys'")
  | JStr _ => Raise (AttributeError "'str' object has no attribute 'keys'")
  | JList _ => Raise (AttributeError "'list' object has no attribute 'keys'")
  end.

(** [stt_callback(request)], on the parsed body: the reply, the state left
    and the task created. *)
Definition stt_callback (payload : Json) (w : World)
  : Result string * World * list SttTask :=
  let mapped :=
    match payload with
    | JDict d => stt_map_payload d
    | _ => Return (JNull, JNull)
    end in
  match mapped with
  | Raise e => (Raise e, w, [])
  | Return (call_id, transcript) =>
      if negb (Py.truthy call_id) || negb (Py.truthy transcript) then
        match payload_keys payload with
        | Return ks =>
            (Raise (HTTPException 400
                      (MsgKeys "Could not parse STT payload. Received keys: " ks)),
             w, [])
        | Raise e => (Raise e, w, [])
        end
      else
        match call_id with
        | JStr id =>
            match active_calls w !! id with
            | Some _ =>
                (Return "accepted", w,
                 [{| task_call_id := id; task_transcript := transcript |}])
            | None => (Raise (HTTPException 404 (Msg "Call session not found")), w, [])
            end
        | JList _ => (Raise (TypeError "unhashable type: 'list'"), w, [])
        | JDict _ => (Raise (TypeError "unhashable type: 'dict'"), w, [])
        | _ => (Raise (HTTPException 404 (Msg "Call session not found")), w, [])
        end
  end.

(** ** Reachable states *)

Inductive Request :=
| ReqStart (new_id now caller : string)
| ReqDtmf (now id digit : string)
| ReqSpeech (ts now id transcript : string)
| ReqEnd (now id : string).

(** The state a request leaves. *)
Definition step (nlu : string -> NluResult) (w : World) (r : Request) : World :=
  match r with
  | ReqStart new_id now caller => snd (start_call new_id now caller w)
  | ReqDtmf now id digit => snd (fst (handle_digit now id digit w))
  | ReqSpeech ts now id transcript =>
      snd (fst (handle_transcribed_text nlu ts now id transcript w))
  | ReqEnd now id => snd (end_call now id w)
  end.

(** An identifier [uuid4] may return: one no live or ended call carries. *)
Definition fresh_id (id : string) (w : World) : Prop :=
  active_calls w !! id = None /\ Forall (fun c => call_id c <> id) (call_history w).

Definition admissible (w : World) (r : Request) : Prop :=
  match r with
  | ReqStart new_id _ _ => fresh_id new_id w
  | _ => True
  end.

Inductive reachable (nlu : string -> NluResult) : World -> Prop :=
| reach_init : reachable nlu empty_world
| reach_step w r :
    reachable nlu w -> admissible w r -> reachable nlu (step nlu w r).

(** Feeding digits one request at a time: the replies, the final state and
    all the tasks created. *)
Fixpoint feed_digits (now id : string) (digits : list string) (w : World)
  : list (Result DtmfReply) * World * list ProviderCall :=
  match digits with
  | [] => ([], w, [])
  | d :: ds =>
      let '(r, w1, t1) := handle_digit now id d w in
      let '(rs, w2, t2) := feed_digits now id ds w1 in
      (r :: rs, w2, (t1 ++ t2)%list)
  end.

Definition is_hangup (c : ProviderCall) : bool :=
  match c with HangupCall _ => true | PlayTts _ _ => false end.

Definition is_tts (c : ProviderCall) : bool :=
  match c with PlayTts _ _ => true | HangupCall _ => false end.

Definition count_calls (p : ProviderCall -> bool) (calls : list ProviderCall) : nat :=
  length (List.filter p calls).

(** ** What one request may do to a call *)

(** [changed s s']: [s'] is [s] after assignments the handlers make: the
    identifier and [ended_at] are kept, [status] is kept or becomes
    [Transferring], [menu_path] is kept or extended at its end. *)
Definition changed (s s' : Session) : Prop :=
  call_id s' = call_id s
  /\ ended_at s' = ended_at s
  /\ (status s' = status s \/ status s' = Transferring)
  /\ exists more, menu_path s' = (menu_path s ++ more)%list.

(** The states a request about call [id] can leave: the one before; the one
    before with the call changed in place; or the call changed, stamped and
    moved to the history. *)
Inductive outcome_world (now id : string) (w : World) : World -> Prop :=
| ow_same : outcome_world now id w w
| ow_changed s s' :
    active_calls w !! id = Some s -> changed s s' ->
    outcome_world now id w (store id s' w)
| ow_ended s s' :
    active_calls w !! id = Some s -> changed s s' ->
    outcome_world now id w
      {| active_calls := delete id (active_calls w);
         call_history := call_history w ++ [set_ended_at now s'] |}.

(** Well-formed registries: a live call is registered under its own
    identifier; no record of the history has the identifier of a live call;
    every record of the history carries its end time; no status is [Ended]. *)
Definition consistent (w : World) : Prop :=
  (forall k s, active_calls w !! k = Some s -> call_id s = k /\ status s <> Ended)
  /\ Forall (fun h => active_calls w !! call_id h = None
                      /\ status h <> Ended /\ is_Some (ended_at h))
       (call_history w).


(** The audit trail ends at the current menu. *)
Definition path_ends_at_menu (s : Session) : Prop :=
  last (menu_path s) = Some (current_menu s).

(** ** The reference classifier, as specified *)

(** The keyword groups in their order of precedence. *)
Record KeywordGroup := {
  group_keywords : list string;
  group_intent : string;
  group_confidence : Q
}.

Definition keyword_groups : list KeywordGroup :=
  [ {| group_keywords := ["book"; "booking"; "reserve"; "ticket"];
       group_intent := "booking_enquiry"; group_confidence := 9 # 10 |};
    {| group_keywords := ["pnr"; "status"; "flight status"; "where is my flight"; "flight"];
       group_intent := "flight_status"; group_confidence := 85 # 100 |};
    {| group_keywords := ["agent"; "human"; "representative"; "operator"];
       group_intent := "agent_transfer"; group_confidence := 95 # 100 |};
    {| group_keywords := ["hi"; "hello"; "hey"; "good morning"; "good evening"];
       group_intent := "greeting"; group_confidence := 8 # 10 |};
    {| group_keywords := ["bye"; "goodbye"; "thanks"; "thank you"];
       group_intent := "end_call"; group_confidence := 95 # 100 |} ].

(** The first group one of whose keywords occurs in [t]. *)
Definition first_matching_group (t : string) : option KeywordGroup :=
  find (fun g => any_in (group_keywords g) t) keyword_groups.

Fixpoint no_digit (s : string) : bool :=
  match s with
  | EmptyString => true
  | String c s' => negb (PyStr.is_digit c) && no_digit s'
  end.

(** A text cut into its digit runs: a gap without digits, then runs of
    digits each followed by a gap without digits. *)
Fixpoint flat (runs : list (string * string)) : string :=
  match runs with
  | [] => EmptyString
  | (r, g) :: rest => r +:+ g +:+ flat rest
  end.

(** Every run is a non-empty string of digits, every gap has no digit, and
    the gap between two runs is not empty: the runs are maximal. *)
Fixpoint well_segmented (runs : list (string * string)) : Prop :=
  match runs with
  | [] => True
  | (r, g) :: rest =>
      r <> EmptyString /\ PyStr.all_digits r = true /\ no_digit g = true
      /\ (rest <> [] -> g <> EmptyString) /\ well_segmented rest
  end.

Definition segmentation (t g0 : string) (runs : list (string * string)) : Prop :=
  t = g0 +:+ flat runs /\ no_digit g0 = true /\ well_segmented runs.

(** The first run of exactly six digits among the runs of a segmentation. *)
Definition first_six_digit_run (runs : list (string * string)) : option string :=
  find (fun d => (String.length d =? 6)%nat) (map fst runs).

(** A normalised text: no upper-case letter, no white space at either end. *)
Fixpoint str_all (p : ascii -> bool) (s : string) : bool :=
  match s with
  | EmptyString => true
  | String c s' => p c && str_all p s'
  end.

Definition first_char (s : string) : option ascii :=
  match s with
  | EmptyString => None
  | String c _ => Some c
  end.

Fixpoint last_char (s : string) : option ascii :=
  match s with
  | EmptyString => None
  | String c EmptyString => Some c
  | String _ s' => last_char s'
  end.

Definition not_space_at (c : option ascii) : Prop :=
  match c with
  | Some c => PyStr.is_space c = false
  | None => True
  end.

Definition normalised (t : string) : Prop :=
  str_all (fun c => negb (PyStr.is_upper c)) t = true
  /\ not_space_at (first_char t) /\ not_space_at (last_char t).

(** ** Requests and the call they are about *)

Definition request_id (r : Request) : string :=
  match r with
  | ReqStart new_id _ _ => new_id
  | ReqDtmf _ id _ => id
  | ReqSpeech _ _ id _ => id
  | ReqEnd _ id => id
  end.

(** The number of calls [get_history] accounts for: ended and live. *)
Definition calls_on_record (w : World) : nat :=
  length (fst (get_history w)) + snd (get_history w).

(** The fields no handler assigns. *)
Definition same_identity (s s' : Session) : Prop :=
  call_id s' = call_id s /\ caller s' = caller s
  /\ created_at s' = created_at s /\ conv_mode s' = conv_mode s
  /\ ended_at s' = ended_at s
  /\ slots (nlp_context s') = slots (nlp_context s).

(** The current menu is a node of the catalog. *)
Definition valid_menu (s : Session) : Prop :=
  is_Some (MENU_STRUCTURE !! current_menu s).

(** A keyword that neither starts nor ends with white space. *)
Definition well_edged (x : string) : Prop :=
  x <> EmptyString /\ not_space_at (first_char x) /\ not_space_at (last_char x).

(** The intent the keyword groups give to a normalised text. *)
Definition group_intent_of (t : string) : string :=
  match first_matching_group t with
  | Some g => group_intent g
  | None => "unknown"
  end.

(** An ASCII letter. *)
Definition is_letter (c : ascii) : bool :=
  let n := nat_of_ascii c in
  PyStr.is_upper c || ((97 <=? n)%nat && (n <=? 122)%nat).

Definition no_letters (t : string) : bool :=
  str_all (fun c => negb (is_letter c)) t.

(** ** Live STT injection *)

(** What the speech recognizer hands back: [result.reason], [result.text]. *)
Inductive ResultReason := RecognizedSpeech | NoMatch | Canceled.

Record RecognitionResult := { reason : ResultReason; text : string }.

(** [transcribe_speech()], on the result of [recognize_once_async().get()]. *)
Definition transcribe_speech (result : RecognitionResult) : string :=
  match reason result with
  | RecognizedSpeech => text result
  | NoMatch => ""
  | Canceled => ""
  end.

(** The dictionary [live_stt] returns. *)
Inductive LiveSttReply :=
| NoSpeechDetected
| Injected (stt_text : string) (ivr_response : Outcome).

(** [body.get("call_id")] *)
Definition body_call_id (body : Json) : Result Json :=
  match body with
  | JDict d => Return (Py.get "call_id" d)
  | JNull => Raise (AttributeError "'NoneType' object has no attribute 'get'")
  | JBool _ => Raise (AttributeError "'bool' object has no attribute 'get'")
  | JNum _ => Raise (AttributeError "'int' object has no attribute 'get'")
  | JStr _ => Raise (AttributeError "'str' object has no attribute 'get'")
  | JList _ => Raise (AttributeError "'list' object has no attribute 'get'")
  end.

(** [live_stt(request)], on the parsed body; [result] is what the
    recognizer returns if it is asked to listen. *)
Definition live_stt (nlu : string -> NluResult) (ts now : string) (body : Json)
    (result : RecognitionResult) (w : World)
  : Result LiveSttReply * World * list ProviderCall :=
  match body_call_id body with
  | Raise e => (Raise e, w, [])
  | Return (JList _) => (Raise (TypeError "unhashable type: 'list'"), w, [])
  | Return (JDict _) => (Raise (TypeError "unhashable type: 'dict'"), w, [])
  | Return (JStr id) =>
      match active_calls w !! id with
      | None => (Raise (HTTPException 404 (Msg "Call not found")), w, [])
      | Some _ =>
          let transcript := transcribe_speech result in
          if negb (PyStr.truthy transcript) then (Return NoSpeechDetected, w, [])
          else
            match handle_transcribed_text nlu ts now id transcript w with
            | (Return out, w', calls) => (Return (Injected transcript out), w', calls)
            | (Raise e, w', calls) => (Raise e, w', calls)
            end
      end
  | Return _ => (Raise (HTTPException 404 (Msg "Call not found")), w, [])
  end.

(** ** The DTMF endpoint and the event loop *)

(** [asyncio.create_task(coro)] schedules [coro] on the event loop running
    in the calling thread, and raises [RuntimeError] when there is none.
    [dtmf_endpoint] is a plain [def] route: called from a coroutine (a
    loop is running) its tasks are created; run by the server, which puts
    plain [def] routes on a worker thread, no loop is running there. *)
Definition create_task (loop : bool) : Result unit :=
  if loop then Return tt else Raise (RuntimeError "no running event loop").

(** [dtmf_endpoint(inp)] with the event loop explicit. Every branch that
    creates tasks stops at its first [create_task] when no loop is running,
    with the assignments made before it. *)
Definition dtmf_endpoint_on (loop : bool) (id digit : string) (w : World)
  : Result DtmfReply * World * list ProviderCall :=
  match active_calls w !! id with
  | None => (Raise (HTTPException 404 (Msg "Call not found")), w, [])
  | Some call =>
      let menu := current_menu call in
      if (menu =? "flight_status") && PyStr.isdigit digit then
        let call := set_pnr_buffer (pnr_buffer call +:+ digit) call in
        if (String.length (pnr_buffer call) =? 6)%nat then
          let pnr := pnr_buffer call in
          let call := set_pnr_buffer "" call in
          let response := "PNR " +:+ pnr +:+ " is confirmed. Flight AI101 is on time." in
          match create_task loop with
          | Raise e => (Raise e, store id call w, [])
          | Return _ =>
              (Return {| reply_action := Some "pnr_lookup"; reply_message := response |},
               store id call w, [PlayTts id response; HangupCall id])
          end
        else
          let remaining := (6 - Z.of_nat (String.length (pnr_buffer call)))%Z in
          (Return (message_only ("Received digit. " +:+ pretty remaining +:+ " digits to go.")),
           store id call w, [])
      else
        match menu_option menu digit with
        | None => (Return (message_only "Invalid choice, please try again."), w, [])
        | Some opt =>
            if opt_action opt =? "goto_menu" then
              match opt_target opt with
              | None => (Raise (KeyError "target"), w, [])
              | Some target =>
                  let call := set_current_menu target call in
                  let call := set_menu_path (menu_path call ++ [target]) call in
                  match MENU_STRUCTURE !! target with
                  | None => (Raise (KeyError target), store id call w, [])
                  | Some node =>
                      match create_task loop with
                      | Raise e => (Raise e, store id call w, [])
                      | Return _ =>
                          (Return (message_only (prompt node)), store id call w,
                           [PlayTts id (prompt node)])
                      end
                  end
              end
            else if opt_action opt =? "transfer_agent" then
              match create_task loop with
              | Raise e => (Raise e, w, [])
              | Return _ =>
                  let call := set_status Transferring call in
                  (Return (message_only "transfer initiated"), store id call w,
                   [PlayTts id (default "Transferring" (opt_message opt))])
              end
            else if opt_action opt =? "end_call" then
              match create_task loop with
              | Raise e => (Raise e, w, [])
              | Return _ =>
                  (Return (message_only "call ended"), w,
                   [PlayTts id (default "Goodbye" (opt_message opt)); HangupCall id])
              end
            else (Return (message_only "Unhandled DTMF action"), w, [])
        end
  end.

(** A DTMF request together with the tasks it left on the loop, if any. *)
Definition handle_digit_on (loop : bool) (now : string) (id digit : string) (w : World)
  : Result DtmfReply * World * list ProviderCall :=
  let '(r, w', tasks) := dtmf_endpoint_on loop id digit w in
  (r, run_tasks now tasks w', tasks).

(** The route as the server runs it: on a worker thread, without a loop. *)
Definition dtmf_endpoint_served : string -> string -> World
  -> Result DtmfReply * World * list ProviderCall :=
  dtmf_endpoint_on false.

Fixpoint feed_digits_on (loop : bool) (now id : string) (digits : list string) (w : World)
  : list (Result DtmfReply) * World * list ProviderCall :=
  match digits with
  | [] => ([], w, [])
  | d :: ds =>
      let '(r, w1, t1) := handle_digit_on loop now id d w in
      let '(rs, w2, t2) := feed_digits_on loop now id ds w1 in
      (r :: rs, w2, (t1 ++ t2)%list)
  end.

(** ** The handler on the transcript objects the webhook passes *)

(** [type(v).__name__] *)
Definition py_type_name (v : Json) : string :=
  match v with
  | JNull => "NoneType"
  | JBool _ => "bool"
  | JNum _ => "int"
  | JStr _ => "str"
  | JList _ => "list"
  | JDict _ => "dict"
  end.

(** The turn the handler stores, for any transcript object. *)
Definition append_turn_value (transcript : Json) (ts : string) (s : Session) : Session :=
  let c := nlp_context s in
  set_nlp_context
    {| history := history c ++ [{| turn_from := "user"; turn_text := transcript; turn_ts := ts |}];
       slots := slots c; last_nlu := last_nlu c |} s.

(** [handle_transcribed_text(call_id, transcript)] for the transcript the
    task of [stt_callback] carries, which is any truthy value of the body.
    A string is handled as above. For any other value the turn is stored,
    then the classifier ([rule_based_nlu], also behind the LLM hook) calls
    [text.lower()] on it and raises [AttributeError]: nothing is spoken and
    [last_nlu] is not assigned. *)
Definition handle_transcribed_value (nlu : string -> NluResult) (ts now : string)
    (id : string) (transcript : Json) (w : World)
  : Result Outcome * World * list ProviderCall :=
  match transcript with
  | JStr text => handle_transcribed_text nlu ts now id text w
  | v =>
      match active_calls w !! id with
      | None => (Raise (ValueError "Unknown call_id"), w, [])
      | Some session =>
          (Raise (AttributeError
                    ("'" +:+ py_type_name v +:+ "' object has no attribute 'lower'")),
           store id (append_turn_value v ts session) w, [])
      end
  end.

(** Running the task the webhook created. *)
Definition run_stt_task (nlu : string -> NluResult) (ts now : string) (t : SttTask)
    (w : World) : Result Outcome * World * list ProviderCall :=
  handle_transcribed_value nlu ts now (task_call_id t) (task_transcript t) w.


(** ** The classifier on any text *)

(** [rule_based_nlu] on a [str] of any characters. A text is the sequence
    of its code points. What Python's Unicode database decides is taken as
    given: [str.lower], the characters [str.strip] removes, and the
    characters [\d] matches in a [str] pattern. *)
Module Uni.

#[local] Open Scope list_scope.

Definition ustr := list N.

(** The code points of an ASCII literal of the source. *)
Definition lit (s : string) : ustr := map N_of_ascii (list_ascii_of_string s).

Record Classification := {
  intent : string;
  confidence : Q;
  entities : gmap string (option ustr)
}.

Definition entity_get (name : string) (r : Classification) : option ustr :=
  match entities r !! name with
  | Some v => v
  | None => None
  end.

Definition flush (cur : ustr) : list ustr :=
  match cur with [] => [] | _ => [cur] end.

(** [t.startswith(x)] *)
Fixpoint starts_with (x t : ustr) : bool :=
  match x with
  | [] => true
  | a :: x' =>
      match t with
      | [] => false
      | c :: t' => (a =? c)%N && starts_with x' t'
      end
  end.

(** [x in t] *)
Fixpoint contains (x t : ustr) : bool :=
  starts_with x t ||
  match t with
  | [] => false
  | _ :: t' => contains x t'
  end.

(** [any(x in t for x in keywords)] *)
Definition any_in (keywords : list string) (t : ustr) : bool :=
  existsb (fun x => contains (lit x) t) keywords.

Section Tables.

Variable str_lower : ustr -> ustr.
Variable is_space : N -> bool.
Variable is_decimal : N -> bool.

Fixpoint lstrip (t : ustr) : ustr :=
  match t with
  | [] => []
  | c :: t' => if is_space c then lstrip t' else t
  end.

Fixpoint rstrip (t : ustr) : ustr :=
  match t with
  | [] => []
  | c :: t' =>
      match rstrip t' with
      | [] => if is_space c then [] else [c]
      | r => c :: r
      end
  end.

Definition strip (t : ustr) : ustr := rstrip (lstrip t).

(** [re.findall(r"\d+", t)] *)
Fixpoint findall_digits_go (cur t : ustr) : list ustr :=
  match t with
  | [] => flush cur
  | c :: t' =>
      if is_decimal c then findall_digits_go (cur ++ [c]) t'
      else flush cur ++ findall_digits_go [] t'
  end.

Definition findall_digits (t : ustr) : list ustr := findall_digits_go [] t.

Definition rule_based_nlu (text : ustr) : Classification :=
  let t := strip (str_lower text) in
  if any_in ["book"; "booking"; "reserve"; "ticket"] t then
    {| intent := "booking_enquiry"; confidence := 9 # 10; entities := ∅ |}
  else if any_in ["pnr"; "status"; "flight status"; "where is my flight"; "flight"] t then
    let digits := findall_digits t in
    let pnr := find (fun d => (length d =? 6)%nat) digits in
    {| intent := "flight_status"; confidence := 85 # 100;
       entities := {[ "pnr" := pnr ]} |}
  else if any_in ["agent"; "human"; "representative"; "operator"] t then
    {| intent := "agent_transfer"; confidence := 95 # 100; entities := ∅ |}
  else if any_in ["hi"; "hello"; "hey"; "good morning"; "good evening"] t then
    {| intent := "greeting"; confidence := 8 # 10; entities := ∅ |}
  else if any_in ["bye"; "goodbye"; "thanks"; "thank you"] t then
    {| intent := "end_call"; confidence := 95 # 100; entities := ∅ |}
  else
    {| intent := "unknown"; confidence := 4 # 10; entities := ∅ |}.

End Tables.

End Uni.

(** ** What the classifier is said to do *)

(** [x] occurs in [t]. *)
Definition occurs (x t : Uni.ustr) : Prop :=
  exists pre post, t = (pre ++ x ++ post)%list.

(** One of the keywords of the group occurs in [t]. *)
Definition group_occurs (g : KeywordGroup) (t : Uni.ustr) : Prop :=
  exists kw, In kw (group_keywords g) /\ occurs (Uni.lit kw) t.

(** [t] is [u] without its leading and trailing white space. *)
Definition trimmed_of (is_space : N -> bool) (u t : Uni.ustr) : Prop :=
  exists l r,
    u = (l ++ t ++ r)%list
    /\ forallb is_space l = true /\ forallb is_space r = true
    /\ (forall c, head t = Some c -> is_space c = false)
    /\ (forall c, last t = Some c -> is_space c = false).

(** [o] is the first group of the precedence table a keyword of which
    occurs in [t], if there is one. *)
Definition first_group_in (groups : list KeywordGroup) (t : Uni.ustr)
    (o : option KeywordGroup) : Prop :=
  match o with
  | Some g =>
      exists earlier later,
        groups = (earlier ++ g :: later)%list
        /\ group_occurs g t
        /\ Forall (fun g' => ~ group_occurs g' t) earlier
  | None => Forall (fun g' => ~ group_occurs g' t) groups
  end.

(** A text cut into its digit runs, as [segmentation] above. *)
Fixpoint uflat (runs : list (Uni.ustr * Uni.ustr)) : Uni.ustr :=
  match runs with
  | [] => []
  | (r, g) :: rest => (r ++ g ++ uflat rest)%list
  end.

Fixpoint u_well_segmented (is_decimal : N -> bool)
    (runs : list (Uni.ustr * Uni.ustr)) : Prop :=
  match runs with
  | [] => True
  | (r, g) :: rest =>
      r <> [] /\ forallb is_decimal r = true
      /\ forallb (fun c => negb (is_decimal c)) g = true
      /\ (rest <> [] -> g <> []) /\ u_well_segmented is_decimal rest
  end.

Definition u_segmentation (is_decimal : N -> bool) (t g0 : Uni.ustr)
    (runs : list (Uni.ustr * Uni.ustr)) : Prop :=
  t = (g0 ++ uflat runs)%list
  /\ forallb (fun c => negb (is_decimal c)) g0 = true
  /\ u_well_segmented is_decimal runs.

(** [o] is the first of the runs [ds] that has exactly six characters, if
    there is one. *)
Definition first_of_length_six (ds : list Uni.ustr) (o : option Uni.ustr) : Prop :=
  match o with
  | Some p =>
      exists before after,
        ds = (before ++ p :: after)%list
        /\ length p = 6
        /\ Forall (fun d => length d <> 6) before
  | None => Forall (fun d => length d <> 6) ds
  end.

(** ASCII tables, for examples: the lower case of a letter, the ASCII white
    space, the ASCII digits, and the digits with the Arabic-Indic ones. *)
Definition ascii_lower_cp (n : N) : N :=
  if ((65 <=? n) && (n <=? 90))%N then (n + 32)%N else n.

Definition ascii_space_cp (n : N) : bool :=
  (((9 <=? n) && (n <=? 13)) || ((28 <=? n) && (n <=? 32)))%N.

Definition ascii_decimal_cp (n : N) : bool := ((48 <=? n) && (n <=? 57))%N.

Definition arabic_decimal_cp (n : N) : bool :=
  ascii_decimal_cp n || ((1632 <=? n) && (n <=? 1641))%N.

(** A text of ASCII characters. *)
Definition ascii_only (u : Uni.ustr) : Prop := Forall (fun n => (n < 128)%N) u.

(** ** Sample calls *)

Definition booking_session : Session :=
  {| call_id := "c1"; caller := "+911234567890"; created_at := "t0";
     current_menu := "booking"; menu_path := ["main"; "booking"];
     conv_mode := true;
     nlp_context := {| history := []; slots := ∅; last_nlu := None |};
     pnr_buffer := ""; status := Active; ended_at := None |}.

Definition pnr_session : Session :=
  {| call_id := "c2"; caller := "+911234567890"; created_at := "t0";
     current_menu := "flight_status"; menu_path := ["main"; "flight_status"];
     conv_mode := true;
     nlp_context := {| history := []; slots := ∅; last_nlu := None |};
     pnr_buffer := ""; status := Active; ended_at := None |}.

Definition pnr_world : World := store "c2" pnr_session empty_world.

Definition new_world : World :=
  snd (make_call_session "c1" "t0" "+911234567890" empty_world).

Definition new_session : Session :=
  {| call_id := "c1"; caller := "+911234567890"; created_at := "t0";
     current_menu := "main"; menu_path := ["main"]; conv_mode := true;
     nlp_context := {| history := []; slots := ∅; last_nlu := None |};
     pnr_buffer := ""; status := Active; ended_at := None |}.

(** * Properties *)

(** ** Sanity checks of the embedding *)

Example lower_strip_ex : PyStr.strip (PyStr.lower "  My PNR is 654321 ") = "my pnr is 654321".
Proof. reflexivity. Qed.

Example findall_ex : PyStr.findall_digits "a12 345678b999999" = ["12"; "345678"; "999999"].
Proof. reflexivity. Qed.

Example pretty_ex : pretty (6 - 7)%Z = "-1" /\ pretty 5%Z = "5".
Proof. split; vm_compute; reflexivity. Qed.

Example menu_ex : menu_option "booking" "0" =
  Some {| opt_action := "goto_menu"; opt_target := Some "main";
          opt_message := Some "Returning to main menu." |}.
Proof. vm_compute. reflexivity. Qed.

Example nlu_ex1 : entity_get "pnr" (rule_based_nlu "my PNR is 654321") = Some "654321".
Proof. vm_compute. reflexivity. Qed.

Example nlu_ex2 : rule_based_nlu "zzz" = {| intent := "unknown"; confidence := 4 # 10; entities := ∅ |}.
Proof. vm_compute. reflexivity. Qed.


(** ** Unknown call identifiers *)

Lemma run_tasks_nil now w : run_tasks now [] w = w.
Proof. reflexivity. Qed.

Lemma handle_digit_unknown now id digit (w : World) :
  active_calls w !! id = None ->
  handle_digit now id digit w = (Raise (HTTPException 404 (Msg "Call not found")), w, []).
Proof. intros Hnone. unfold handle_digit, dtmf_endpoint. rewrite Hnone. reflexivity. Qed.

Lemma handle_transcribed_text_unknown nlu ts now id transcript (w : World) :
  active_calls w !! id = None ->
  handle_transcribed_text nlu ts now id transcript w
  = (Raise (ValueError "Unknown call_id"), w, []).
Proof. intros Hnone. unfold handle_transcribed_text. rewrite Hnone. reflexivity. Qed.

(** C7: a DTMF digit or a transcript for an identifier that is not in
    [active_calls] raises (404 "Call not found", resp. [ValueError]
    "Unknown call_id") and leaves the live store and the history as they
    were; no task is created and no provider call is made. *)
Theorem unknown_call_is_rejected nlu ts now id x (w : World) :
  active_calls w !! id = None ->
  handle_digit now id x w = (Raise (HTTPException 404 (Msg "Call not found")), w, [])
  /\ handle_transcribed_text nlu ts now id x w = (Raise (ValueError "Unknown call_id"), w, []).
Proof.
  intros Hnone. split.
  - apply handle_digit_unknown. assumption.
  - apply handle_transcribed_text_unknown. assumption.
Qed.

Lemma unknown_call_is_rejected_witness :
  handle_digit "t1" "nobody" "1" empty_world
    = (Raise (HTTPException 404 (Msg "Call not found")), empty_world, [])
  /\ handle_transcribed_text rule_based_nlu "t0" "t1" "nobody" "1" empty_world
    = (Raise (ValueError "Unknown call_id"), empty_world, []).
Proof.
  apply (unknown_call_is_rejected rule_based_nlu "t0" "t1" "nobody" "1" empty_world).
  reflexivity.
Defined.

(** ** Menu navigation by digits *)

Lemma dtmf_unmapped now id digit call (w : World) :
  active_calls w !! id = Some call ->
  (current_menu call =? "flight_status") && PyStr.isdigit digit = false ->
  menu_option (current_menu call) digit = None ->
  handle_digit now id digit w
    = (Return (message_only "Invalid choice, please try again."), w, []).
Proof.
  intros Hcall Hnav Hopt. unfold handle_digit, dtmf_endpoint.
  rewrite Hcall, Hnav, Hopt. reflexivity.
Qed.

(** C9: outside digit collection (the current menu is not the flight status
    node, or the input is not numeric), a digit the current menu does not
    map is answered with "Invalid choice, please try again." and nothing
    changes: the whole state, hence [current_menu] and [menu_path], is the
    one before, and no task is created. *)
Theorem unmapped_digit_changes_nothing now id digit call (w : World) :
  active_calls w !! id = Some call ->
  current_menu call <> "flight_status" \/ PyStr.isdigit digit = false ->
  menu_option (current_menu call) digit = None ->
  handle_digit now id digit w
    = (Return (message_only "Invalid choice, please try again."), w, []).
Proof.
  intros Hcall Hnav Hopt. apply (dtmf_unmapped now id digit call); auto.
  destruct Hnav as [Hm | Hd].
  - apply String.eqb_neq in Hm. rewrite Hm. reflexivity.
  - rewrite Hd. apply andb_false_r.
Qed.

Lemma unmapped_digit_changes_nothing_witness :
  let w := store "c1" booking_session empty_world in
  handle_digit "t1" "c1" "9" w
    = (Return (message_only "Invalid choice, please try again."), w, []).
Proof.
  intros w.
  apply (unmapped_digit_changes_nothing "t1" "c1" "9" booking_session w).
  - vm_compute. reflexivity.
  - left. discriminate.
  - vm_compute. reflexivity.
Defined.

(** ** Digit collection in the flight status node *)



Lemma dtmf_slot_more id digit call (w : World) :
  active_calls w !! id = Some call ->
  current_menu call = "flight_status" ->
  PyStr.isdigit digit = true ->
  String.length (pnr_buffer call +:+ digit) <> 6 ->
  dtmf_endpoint id digit w =
    (Return (message_only
       ("Received digit. "
        +:+ pretty (6 - Z.of_nat (String.length (pnr_buffer call +:+ digit)))%Z
        +:+ " digits to go.")),
     store id (set_pnr_buffer (pnr_buffer call +:+ digit) call) w, []).
Proof.
  intros Hcall Hmenu Hdig Hlen. unfold dtmf_endpoint.
  rewrite Hcall, Hmenu, Hdig. rewrite String.eqb_refl. cbn [andb pnr_buffer set_pnr_buffer].
  apply Nat.eqb_neq in Hlen. rewrite Hlen. reflexivity.
Qed.

Lemma dtmf_slot_done id digit call (w : World) :
  active_calls w !! id = Some call ->
  current_menu call = "flight_status" ->
  PyStr.isdigit digit = true ->
  String.length (pnr_buffer call +:+ digit) = 6 ->
  dtmf_endpoint id digit w =
    (let response := "PNR " +:+ (pnr_buffer call +:+ digit)
                     +:+ " is confirmed. Flight AI101 is on time." in
     (Return {| reply_action := Some "pnr_lookup"; reply_message := response |},
      store id (set_pnr_buffer "" call) w,
      [PlayTts id response; HangupCall id])).
Proof.
  intros Hcall Hmenu Hdig Hlen. unfold dtmf_endpoint.
  rewrite Hcall, Hmenu, Hdig. rewrite String.eqb_refl. cbn [andb pnr_buffer set_pnr_buffer].
  apply Nat.eqb_eq in Hlen. rewrite Hlen. reflexivity.
Qed.

Lemma store_store id c1 c2 (w : World) : store id c2 (store id c1 w) = store id c2 w.
Proof. unfold store. cbn. rewrite insert_insert_eq. reflexivity. Qed.

Lemma lookup_store id c (w : World) : active_calls (store id c w) !! id = Some c.
Proof. apply lookup_insert_eq. Qed.

Lemma lookup_store_ne id id' c (w : World) :
  id <> id' -> active_calls (store id c w) !! id' = active_calls w !! id'.
Proof. intros. cbn. apply lookup_insert_ne. assumption. Qed.

Lemma store_same id c (w : World) : active_calls w !! id = Some c -> store id c w = w.
Proof.
  intros H. destruct w as [a h]. unfold store. cbn in *. rewrite insert_id; auto.
Qed.

Lemma hangup_store now id c (w : World) :
  hangup_call now id (store id c w) =
    {| active_calls := delete id (active_calls w);
       call_history := call_history w ++ [set_ended_at now c] |}.
Proof.
  unfold hangup_call, cleanup_call. rewrite lookup_store. cbn.
  rewrite delete_insert_eq. reflexivity.
Qed.

Lemma slot_digit_more now id b d call (w : World) :
  current_menu call = "flight_status" ->
  PyStr.isdigit d = true ->
  String.length (b +:+ d) <> 6 ->
  handle_digit now id d (store id (set_pnr_buffer b call) w) =
    (Return (message_only
       ("Received digit. " +:+ pretty (6 - Z.of_nat (String.length (b +:+ d)))%Z
        +:+ " digits to go.")),
     store id (set_pnr_buffer (b +:+ d) call) w, []).
Proof.
  intros Hmenu Hd Hlen. unfold handle_digit.
  rewrite (dtmf_slot_more id d (set_pnr_buffer b call)); auto using lookup_store.
  cbn [run_tasks fold_left]. rewrite store_store. reflexivity.
Qed.

Lemma slot_digit_done now id b d call (w : World) :
  current_menu call = "flight_status" ->
  PyStr.isdigit d = true ->
  String.length (b +:+ d) = 6 ->
  handle_digit now id d (store id (set_pnr_buffer b call) w) =
    (let response := "PNR " +:+ (b +:+ d) +:+ " is confirmed. Flight AI101 is on time." in
     (Return {| reply_action := Some "pnr_lookup"; reply_message := response |},
      {| active_calls := delete id (active_calls w);
         call_history := call_history w ++ [set_ended_at now (set_pnr_buffer "" call)] |},
      [PlayTts id response; HangupCall id])).
Proof.
  intros Hmenu Hd Hlen. unfold handle_digit.
  rewrite (dtmf_slot_done id d (set_pnr_buffer b call)); auto using lookup_store.
  cbn [run_tasks fold_left run_task]. rewrite store_store, hangup_store. reflexivity.
Qed.

Lemma session_as_stored id call (w : World) :
  active_calls w !! id = Some call ->
  w = store id (set_pnr_buffer (pnr_buffer call) call) w.
Proof.
  intros H. symmetry. apply store_same. rewrite H. destruct call. reflexivity.
Qed.



(** Where an event loop is running (the endpoint called from a coroutine),
    a call collecting the PNR (flight status node, empty buffer) that
    receives "1", "2", "3", "4", "5" answers each with the number of digits
    still to go, keeps the digits in the buffer and stays in the flight
    status node; the sixth digit "6" answers with a text containing
    "123456", creates one speech task and one hang-up task, and the hang-up
    moves the call to the history. *)
Theorem six_digits_complete_the_pnr now id call (w : World) :
  active_calls w !! id = Some call ->
  current_menu call = "flight_status" ->
  pnr_buffer call = "" ->
  let confirmation := "PNR 123456 is confirmed. Flight AI101 is on time." in
  (forall k, 1 <= k <= 5 ->
     feed_digits now id (take k ["1"; "2"; "3"; "4"; "5"]) w =
       (take k [Return (message_only "Received digit. 5 digits to go.");
                Return (message_only "Received digit. 4 digits to go.");
                Return (message_only "Received digit. 3 digits to go.");
                Return (message_only "Received digit. 2 digits to go.");
                Return (message_only "Received digit. 1 digits to go.")],
        store id (set_pnr_buffer (String.substring 0 k "12345") call) w, []))
  /\ feed_digits now id ["1"; "2"; "3"; "4"; "5"; "6"] w =
       ([Return (message_only "Received digit. 5 digits to go.");
         Return (message_only "Received digit. 4 digits to go.");
         Return (message_only "Received digit. 3 digits to go.");
         Return (message_only "Received digit. 2 digits to go.");
         Return (message_only "Received digit. 1 digits to go.");
         Return {| reply_action := Some "pnr_lookup"; reply_message := confirmation |}],
        {| active_calls := delete id (active_calls w);
           call_history := call_history w ++ [set_ended_at now call] |},
        [PlayTts id confirmation; HangupCall id])
  /\ PyStr.contains "123456" confirmation = true
  /\ count_calls is_hangup (snd (feed_digits now id ["1"; "2"; "3"; "4"; "5"; "6"] w)) = 1
  /\ count_calls is_tts (snd (feed_digits now id ["1"; "2"; "3"; "4"; "5"; "6"] w)) = 1
  /\ length (call_history (snd (fst (feed_digits now id ["1"; "2"; "3"; "4"; "5"; "6"] w))))
     = S (length (call_history w))
  /\ (forall b, current_menu (set_pnr_buffer b call) = "flight_status").
Proof.
  intros Hcall Hmenu Hbuf confirmation.
  assert (Hw : w = store id (set_pnr_buffer "" call) w).
  { rewrite <- Hbuf. apply session_as_stored. assumption. }
  assert (Hend : set_pnr_buffer "" call = call).
  { rewrite <- Hbuf. destruct call. reflexivity. }
  assert (Hall : feed_digits now id ["1"; "2"; "3"; "4"; "5"; "6"] w =
       ([Return (message_only "Received digit. 5 digits to go.");
         Return (message_only "Received digit. 4 digits to go.");
         Return (message_only "Received digit. 3 digits to go.");
         Return (message_only "Received digit. 2 digits to go.");
         Return (message_only "Received digit. 1 digits to go.");
         Return {| reply_action := Some "pnr_lookup"; reply_message := confirmation |}],
        {| active_calls := delete id (active_calls w);
           call_history := call_history w ++ [set_ended_at now call] |},
        [PlayTts id confirmation; HangupCall id])).
  { rewrite Hw at 1. cbn [feed_digits].
    repeat (rewrite slot_digit_more by (auto; discriminate)).
    rewrite slot_digit_done by auto. rewrite Hend. reflexivity. }
  split; [ | split; [ exact Hall | rewrite Hall; repeat split; auto ] ].
  - intros k Hk. rewrite Hw at 1.
    assert (k = 1 \/ k = 2 \/ k = 3 \/ k = 4 \/ k = 5) as Hcases by lia.
    destruct Hcases as [-> | [-> | [-> | [-> | ->]]]]; cbn [take feed_digits];
      repeat (rewrite slot_digit_more by (auto; discriminate));
      reflexivity.
  - cbn [fst snd call_history]. rewrite length_app. cbn. lia.
Qed.

Lemma six_digits_complete_the_pnr_witness :
  feed_digits "t1" "c2" ["1"; "2"; "3"; "4"; "5"; "6"] pnr_world =
    ([Return (message_only "Received digit. 5 digits to go.");
      Return (message_only "Received digit. 4 digits to go.");
      Return (message_only "Received digit. 3 digits to go.");
      Return (message_only "Received digit. 2 digits to go.");
      Return (message_only "Received digit. 1 digits to go.");
      Return {| reply_action := Some "pnr_lookup";
                reply_message := "PNR 123456 is confirmed. Flight AI101 is on time." |}],
     {| active_calls := delete "c2" (active_calls pnr_world);
        call_history := [set_ended_at "t1" pnr_session] |},
     [PlayTts "c2" "PNR 123456 is confirmed. Flight AI101 is on time."; HangupCall "c2"]).
Proof.
  pose proof (six_digits_complete_the_pnr "t1" "c2" pnr_session pnr_world) as H.
  destruct H as (_ & H & _).
  - vm_compute. reflexivity.
  - reflexivity.
  - reflexivity.
  - exact H.
Defined.

(** ** Resolution of the flight status intent *)

Lemma flight_status_response :
  map_response (default unknown_mapping (INTENT_ACTION_MAP !! "flight_status"))
  = "Please tell me your 6-digit PNR.".
Proof. vm_compute. reflexivity. Qed.

(** C4: for a classification whose intent is flight status,
    - if its [pnr] entity is a non-empty value, the resolver returns
      [SpeakAndHangup] with the confirmation of that PNR (not [AskForPnr]),
      and the handler speaks it and hangs up;
    - if it has no [pnr] (no key, or [None]), the resolver returns
      [AskForPnr] with the PNR prompt, and the handler leaves the call live
      with [current_menu] set to the flight status node. *)
Theorem flight_status_resolution nlu ts now id transcript session (w : World) :
  active_calls w !! id = Some session ->
  intent (nlu transcript) = "flight_status" ->
  let r := nlu transcript in
  let heard := set_last_nlu r (append_turn transcript ts session) in
  (forall pnr, entity_get "pnr" r = Some pnr -> pnr <> "" ->
     (forall s, map_intent_to_action r s = SpeakAndHangup (pnr_confirmation pnr))
     /\ pnr_confirmation pnr
        = "PNR " +:+ pnr +:+ " is confirmed. Flight AI101 from Mumbai-Delhi is Confirmed."
     /\ handle_transcribed_text nlu ts now id transcript w =
          (Return {| out_status := "ok"; out_action := "hangup"; out_menu := None;
                     out_spoken := pnr_confirmation pnr |},
           {| active_calls := delete id (active_calls w);
              call_history := call_history w ++ [set_ended_at now heard] |},
           [PlayTts id (pnr_confirmation pnr); HangupCall id]))
  /\ (entity_get "pnr" r = None ->
      (forall s, map_intent_to_action r s = AskForPnr "Please tell me your 6-digit PNR.")
      /\ handle_transcribed_text nlu ts now id transcript w =
           (Return {| out_status := "ok"; out_action := "ask_for_pnr"; out_menu := None;
                      out_spoken := "Please tell me your 6-digit PNR." |},
            store id (set_current_menu "flight_status" heard) w,
            [PlayTts id "Please tell me your 6-digit PNR."])
      /\ current_menu (set_current_menu "flight_status" heard) = "flight_status").
Proof.
  intros Hcall Hint r heard. split.
  - intros pnr Hpnr Hne.
    assert (Hres : forall s, map_intent_to_action r s = SpeakAndHangup (pnr_confirmation pnr)).
    { intros s. unfold map_intent_to_action. fold r in Hint. rewrite Hint, Hpnr. cbn.
      destruct pnr; [ congruence | reflexivity ]. }
    split; [ exact Hres | split; [ reflexivity | ] ].
    unfold handle_transcribed_text. rewrite Hcall. fold r. rewrite Hres. cbn zeta.
    cbn [action_response]. rewrite hangup_store. reflexivity.
  - intros Hpnr.
    assert (Hres : forall s, map_intent_to_action r s = AskForPnr "Please tell me your 6-digit PNR.").
    { intros s. unfold map_intent_to_action. fold r in Hint. rewrite Hint, Hpnr. cbn.
      rewrite flight_status_response. reflexivity. }
    split; [ exact Hres | split; [ | reflexivity ] ].
    unfold handle_transcribed_text. rewrite Hcall. fold r. rewrite Hres. reflexivity.
Qed.

Lemma flight_status_resolution_witness :
  (forall s, map_intent_to_action (rule_based_nlu "my pnr is 654321") s
     = SpeakAndHangup "PNR 654321 is confirmed. Flight AI101 from Mumbai-Delhi is Confirmed.")
  /\ (forall s, map_intent_to_action (rule_based_nlu "I want to check my flight status") s
        = AskForPnr "Please tell me your 6-digit PNR.").
Proof.
  split.
  - pose proof (flight_status_resolution rule_based_nlu "t1" "t2" "c1"
                  "my pnr is 654321" new_session new_world) as H.
    destruct H as [H _].
    + vm_compute. reflexivity.
    + vm_compute. reflexivity.
    + destruct (H "654321") as [Hres _].
      * vm_compute. reflexivity.
      * discriminate.
      * exact Hres.
  - pose proof (flight_status_resolution rule_based_nlu "t1" "t2" "c1"
                  "I want to check my flight status" new_session new_world) as H.
    destruct H as [_ H].
    + vm_compute. reflexivity.
    + vm_compute. reflexivity.
    + destruct H as [Hres _].
      * vm_compute. reflexivity.
      * exact Hres.
Defined.

(** ** Frame of a request *)

Lemma changed_refl s : changed s s.
Proof. unfold changed. repeat split; auto. exists []. rewrite app_nil_r. reflexivity. Qed.

Lemma changed_trans s1 s2 s3 : changed s1 s2 -> changed s2 s3 -> changed s1 s3.
Proof.
  intros (Hi1 & He1 & Hs1 & m1 & Hp1) (Hi2 & He2 & Hs2 & m2 & Hp2).
  unfold changed. repeat split; try congruence.
  - destruct Hs2 as [Hs2 | Hs2]; [ rewrite Hs2; exact Hs1 | right; exact Hs2 ].
  - exists (m1 ++ m2)%list. rewrite Hp2, Hp1, app_assoc. reflexivity.
Qed.

Ltac changed_field :=
  unfold changed; cbn; repeat split; auto;
  try (exists []; rewrite app_nil_r; reflexivity).

Lemma changed_pnr_buffer b s : changed s (set_pnr_buffer b s).
Proof. changed_field. Qed.

Lemma changed_current_menu m s : changed s (set_current_menu m s).
Proof. changed_field. Qed.

Lemma changed_menu_path t s : changed s (set_menu_path (menu_path s ++ [t]) s).
Proof. changed_field. exists [t]. reflexivity. Qed.

Lemma changed_status s : changed s (set_status Transferring s).
Proof. changed_field. Qed.

Lemma changed_append_turn x ts s : changed s (append_turn x ts s).
Proof. changed_field. Qed.

Lemma changed_last_nlu r s : changed s (set_last_nlu r s).
Proof. changed_field. Qed.

Lemma changed_goto t s :
  changed s (set_menu_path (menu_path (set_current_menu t s) ++ [t]) (set_current_menu t s)).
Proof. changed_field. exists [t]. reflexivity. Qed.

Create HintDb frame.

#[local] Hint Resolve changed_refl changed_pnr_buffer changed_current_menu
  changed_menu_path changed_status changed_append_turn changed_last_nlu
  changed_goto : frame.

Lemma changed_heard r x ts s : changed s (set_last_nlu r (append_turn x ts s)).
Proof.
  apply (changed_trans s (append_turn x ts s));
    [ apply changed_append_turn | apply changed_last_nlu ].
Qed.

#[local] Hint Resolve changed_heard : frame.

Lemma cleanup_absent now id (w : World) :
  active_calls w !! id = None -> cleanup_call now id w = (None, w).
Proof.
  intros H. unfold cleanup_call. rewrite H. destruct w as [a h]. cbn in *.
  rewrite delete_id by assumption. reflexivity.
Qed.

Lemma hangup_live now id s (w : World) :
  active_calls w !! id = Some s ->
  hangup_call now id w =
    {| active_calls := delete id (active_calls w);
       call_history := call_history w ++ [set_ended_at now s] |}.
Proof. intros H. unfold hangup_call, cleanup_call. rewrite H. reflexivity. Qed.

Lemma dtmf_endpoint_frame now id digit (w : World) :
  outcome_world now id w (snd (fst (handle_digit now id digit w))).
Proof.
  unfold handle_digit, dtmf_endpoint.
  destruct (active_calls w !! id) as [call|] eqn:Hcall; [ | constructor ].
  destruct ((current_menu call =? "flight_status") && PyStr.isdigit digit).
  - destruct (String.length _ =? 6)%nat.
    + cbn [run_tasks fold_left run_task fst snd]. rewrite hangup_store.
      eapply ow_ended; eauto. changed_field.
    + cbn. eapply ow_changed; eauto with frame.
  - destruct (menu_option (current_menu call) digit) as [opt|]; [ | constructor ].
    destruct (opt_action opt =? "goto_menu").
    { destruct (opt_target opt) as [target|]; [ | constructor ].
      destruct (MENU_STRUCTURE !! target); cbn; eapply ow_changed; eauto with frame. }
    destruct (opt_action opt =? "transfer_agent").
    { cbn. eapply ow_changed; eauto with frame. }
    destruct (opt_action opt =? "end_call"); [ | constructor ].
    cbn [run_tasks fold_left run_task fst snd]. rewrite (hangup_live now id call) by assumption.
    eapply ow_ended; eauto with frame.
Qed.

Lemma handle_transcribed_text_frame nlu ts now id transcript (w : World) :
  outcome_world now id w (snd (fst (handle_transcribed_text nlu ts now id transcript w))).
Proof.
  unfold handle_transcribed_text.
  destruct (active_calls w !! id) as [session|] eqn:Hcall; [ | constructor ].
  destruct (map_intent_to_action _ _); cbn [fst snd];
    try rewrite hangup_store;
    solve [ eapply ow_changed; eauto with frame
          | eapply ow_ended; eauto with frame
          | eapply ow_changed; eauto;
            eapply changed_trans; [ apply changed_heard | eauto with frame ] ].
Qed.

Lemma end_call_frame now id (w : World) :
  outcome_world now id w (snd (end_call now id w)).
Proof.
  unfold end_call. cbn [snd].
  destruct (active_calls w !! id) as [s|] eqn:Hcall.
  - fold (hangup_call now id w). rewrite (hangup_live now id s) by assumption.
    eapply ow_ended; eauto with frame.
  - rewrite cleanup_absent by assumption. constructor.
Qed.

(** ** Well-formedness of reachable states *)

Lemma consistent_empty : consistent empty_world.
Proof.
  split.
  - intros k s H. cbn in H. rewrite lookup_empty in H. discriminate.
  - constructor.
Qed.

Lemma outcome_world_consistent now id (w w' : World) :
  consistent w -> outcome_world now id w w' -> consistent w'.
Proof.
  intros [Hlive Hhist] Hout.
  destruct Hout as [ | s s' Hs Hch | s s' Hs Hch ]; [ split; assumption | | ];
    destruct (Hlive id s Hs) as [Hid Hst];
    destruct Hch as (Hcid & Hend & Hstat & _);
    assert (Hst' : status s' <> Ended)
      by (destruct Hstat as [E | E]; rewrite E; [ assumption | discriminate ]).
  - split.
    + intros k x Hk. cbn in Hk.
      destruct (decide (id = k)) as [<- | Hne].
      * rewrite lookup_insert_eq in Hk. injection Hk as <-. split; congruence.
      * rewrite lookup_insert_ne in Hk by assumption. eauto.
    + cbn. eapply Forall_impl; [ exact Hhist | ].
      intros h (Hnone & Hs' & He). repeat split; auto.
      rewrite lookup_insert_ne; [ assumption | ]. congruence.
  - split.
    + intros k x Hk. cbn in Hk. apply lookup_delete_Some in Hk. destruct Hk as [_ Hk]. eauto.
    + cbn. apply Forall_app. split.
      * eapply Forall_impl; [ exact Hhist | ].
        intros h (Hnone & Hs' & He). repeat split; auto.
        apply lookup_delete_None. right. assumption.
      * constructor; [ | constructor ]. cbn. repeat split; eauto.
        rewrite Hcid, Hid. apply lookup_delete_eq.
Qed.

Lemma start_call_world new_id now caller (w : World) :
  snd (start_call new_id now caller w) =
    store new_id
      {| call_id := new_id; caller := caller; created_at := now;
         current_menu := "main"; menu_path := ["main"]; conv_mode := true;
         nlp_context := {| history := []; slots := ∅; last_nlu := None |};
         pnr_buffer := ""; status := Active; ended_at := None |} w.
Proof. reflexivity. Qed.

Lemma start_call_consistent new_id now caller (w : World) :
  consistent w -> fresh_id new_id w ->
  consistent (snd (start_call new_id now caller w)).
Proof.
  intros [Hlive Hhist] [Hfree Hnew]. rewrite start_call_world.
  unfold store. split; cbn [active_calls call_history].
  - intros k x Hk.
    destruct (decide (new_id = k)) as [<- | Hne].
    + rewrite lookup_insert_eq in Hk. injection Hk as <-. cbn. split; [ reflexivity | discriminate ].
    + rewrite lookup_insert_ne in Hk by assumption. eauto.
  - rewrite Forall_forall in *. intros h Hin.
    destruct (Hhist h Hin) as (Hnone & Hs & He). repeat split; auto.
    rewrite lookup_insert_ne; [ assumption | ]. intros E. exact (Hnew h Hin (eq_sym E)).
Qed.

Lemma step_frame nlu (w : World) r :
  match r with
  | ReqStart _ _ _ => True
  | ReqDtmf now id _ | ReqSpeech _ now id _ | ReqEnd now id =>
      outcome_world now id w (step nlu w r)
  end.
Proof.
  destruct r; cbn [step]; auto using dtmf_endpoint_frame,
    handle_transcribed_text_frame, end_call_frame.
Qed.

Lemma reachable_consistent nlu (w : World) : reachable nlu w -> consistent w.
Proof.
  induction 1 as [ | w r Hreach IH Hadm ].
  - apply consistent_empty.
  - pose proof (step_frame nlu w r) as Hframe.
    destruct r; try (eapply outcome_world_consistent; eassumption).
    apply start_call_consistent; assumption.
Qed.

Lemma new_world_reachable nlu : reachable nlu new_world.
Proof.
  apply (reach_step nlu empty_world (ReqStart "c1" "t0" "+911234567890")).
  - constructor.
  - split; [ reflexivity | constructor ].
Qed.

(** ** Termination of a call *)

(** C3, as stated, fails: ending the call just started stamps the record
    but its status is still [Active], not [Ended]. *)
Lemma terminate_does_not_set_ended :
  match fst (cleanup_call "t1" "c1" new_world) with
  | Some c => ended_at c = Some "t1" /\ status c = Active /\ status c <> Ended
  | None => False
  end.
Proof. vm_compute. repeat split; discriminate. Qed.

(** C3, amended: ending a live call of a reachable state stamps [ended_at],
    leaves [status] as it was, removes the call from the live store and
    appends the stamped record, whole, to the history; in the state left
    (as in every reachable state) no record of the history has the
    identifier of a live call. *)
Theorem terminate_moves_record nlu now id c (w : World) :
  reachable nlu w ->
  active_calls w !! id = Some c ->
  let c' := set_ended_at now c in
  cleanup_call now id w =
    (Some c', {| active_calls := delete id (active_calls w);
                 call_history := call_history w ++ [c'] |})
  /\ ended_at c' = Some now
  /\ status c' = status c
  /\ active_calls (snd (cleanup_call now id w)) !! id = None
  /\ Forall (fun h => active_calls (snd (cleanup_call now id w)) !! call_id h = None)
       (call_history (snd (cleanup_call now id w)))
  /\ Forall (fun h => active_calls w !! call_id h = None) (call_history w).
Proof.
  intros Hreach Hc c'.
  assert (Hcl : cleanup_call now id w =
                (Some c', {| active_calls := delete id (active_calls w);
                             call_history := call_history w ++ [c'] |})).
  { unfold cleanup_call. rewrite Hc. reflexivity. }
  assert (Hcons : consistent (snd (cleanup_call now id w))).
  { apply (outcome_world_consistent now id w).
    - apply (reachable_consistent nlu). assumption.
    - apply (end_call_frame now id w). }
  repeat split; auto.
  - rewrite Hcl. cbn. apply lookup_delete_eq.
  - destruct Hcons as [_ Hh]. eapply Forall_impl; [ exact Hh | ]. cbn. tauto.
  - destruct (reachable_consistent nlu w Hreach) as [_ Hh].
    eapply Forall_impl; [ exact Hh | ]. cbn. tauto.
Qed.

Lemma terminate_moves_record_witness :
  cleanup_call "t1" "c1" new_world =
    (Some (set_ended_at "t1" new_session),
     {| active_calls := delete "c1" (active_calls new_world);
        call_history := [set_ended_at "t1" new_session] |}).
Proof.
  pose proof (terminate_moves_record rule_based_nlu "t1" "c1" new_session new_world) as H.
  destruct H as [H _].
  - apply new_world_reachable.
  - vm_compute. reflexivity.
  - exact H.
Defined.

(** ** Status of a call *)





(** ** The menu path *)

(** Any request keeps the [menu_path] of a call that stays live, or
    extends it at its end. *)
Lemma menu_path_only_grows nlu (w : World) r k s' :
  admissible w r ->
  active_calls (step nlu w r) !! k = Some s' ->
  (exists s more, active_calls w !! k = Some s
                  /\ menu_path s' = (menu_path s ++ more)%list
                  /\ length (menu_path s) <= length (menu_path s'))
  \/ (active_calls w !! k = None /\ menu_path s' = ["main"]).
Proof.
  intros Hadm Hk.
  assert (Hframe : forall now id, outcome_world now id w (step nlu w r) ->
            exists s more, active_calls w !! k = Some s
                           /\ menu_path s' = (menu_path s ++ more)%list
                           /\ length (menu_path s) <= length (menu_path s')).
  { intros now id Hout. destruct Hout as [ | s0 s1 Hs Hch | s0 s1 Hs Hch ].
    - exists s', []. rewrite app_nil_r. auto.
    - cbn in Hk. destruct (decide (id = k)) as [<- | Hne].
      + rewrite lookup_insert_eq in Hk. injection Hk as <-.
        destruct Hch as (_ & _ & _ & more & Hp). exists s0, more.
        repeat split; auto. rewrite Hp, length_app. lia.
      + rewrite lookup_insert_ne in Hk by assumption.
        exists s', []. rewrite app_nil_r. auto.
    - cbn in Hk. apply lookup_delete_Some in Hk. destruct Hk as [_ Hk].
      exists s', []. rewrite app_nil_r. auto. }
  pose proof (step_frame nlu w r) as Hstep.
  destruct r as [new_id now caller | now id digit | ts now id x | now id ];
    try (left; eapply Hframe; exact Hstep).
  cbn [step] in Hk. rewrite start_call_world in Hk. cbn in Hk.
  destruct (decide (new_id = k)) as [<- | Hne].
  - rewrite lookup_insert_eq in Hk. injection Hk as <-.
    right. destruct Hadm as [Hfree _]. auto.
  - rewrite lookup_insert_ne in Hk by assumption.
    left. exists s', []. rewrite app_nil_r. auto.
Qed.

Lemma last_snoc_menu (p : list string) t : last (p ++ [t]) = Some t.
Proof. apply last_snoc. Qed.

(** A digit keeps the audit trail in step with the current menu. *)
Lemma dtmf_keeps_path_end now id digit s s' (w : World) :
  active_calls w !! id = Some s ->
  path_ends_at_menu s ->
  active_calls (snd (fst (handle_digit now id digit w))) !! id = Some s' ->
  path_ends_at_menu s'.
Proof.
  intros Hs Hend. unfold handle_digit, dtmf_endpoint. rewrite Hs.
  destruct ((current_menu s =? "flight_status") && PyStr.isdigit digit).
  - destruct (String.length _ =? 6)%nat.
    + cbn [run_tasks fold_left run_task fst snd]. rewrite hangup_store. cbn.
      rewrite lookup_delete_eq. discriminate.
    + cbn [fst snd run_tasks fold_left]. rewrite lookup_store. intros [= <-]. exact Hend.
  - destruct (menu_option (current_menu s) digit) as [opt|].
    2:{ cbn. rewrite Hs. intros [= <-]. exact Hend. }
    destruct (opt_action opt =? "goto_menu").
    { destruct (opt_target opt) as [target|].
      2:{ cbn. rewrite Hs. intros [= <-]. exact Hend. }
      destruct (MENU_STRUCTURE !! target); cbn [fst snd run_tasks fold_left run_task];
        rewrite lookup_store; intros [= <-]; apply last_snoc_menu. }
    destruct (opt_action opt =? "transfer_agent").
    { cbn [fst snd run_tasks fold_left run_task]. rewrite lookup_store.
      intros [= <-]. exact Hend. }
    destruct (opt_action opt =? "end_call").
    + cbn [run_tasks fold_left run_task fst snd]. rewrite (hangup_live now id s) by assumption.
      cbn. rewrite lookup_delete_eq. discriminate.
    + cbn. rewrite Hs. intros [= <-]. exact Hend.
Qed.

(** So does a transcript, unless it is resolved to [AskForPnr]. *)
Lemma transcript_keeps_path_end nlu ts now id x s s' (w : World) :
  active_calls w !! id = Some s ->
  path_ends_at_menu s ->
  (forall resp, map_intent_to_action (nlu x)
                  (set_last_nlu (nlu x) (append_turn x ts s)) <> AskForPnr resp) ->
  active_calls (snd (fst (handle_transcribed_text nlu ts now id x w))) !! id = Some s' ->
  path_ends_at_menu s'.
Proof.
  intros Hs Hend Hno. unfold handle_transcribed_text. rewrite Hs.
  destruct (map_intent_to_action _ _) as [t r | r | r | r | r | r ] eqn:Hact;
    cbn [fst snd];
    try (rewrite hangup_store; cbn [active_calls]; rewrite lookup_delete_eq; discriminate);
    rewrite lookup_store; intros [= <-].
  - apply last_snoc_menu.
  - exfalso. exact (Hno r eq_refl).
  - exact Hend.
  - exact Hend.
  - exact Hend.
Qed.

(** C2 at the failing input: on the call just started (trail [["main"]],
    current menu "main") the transcript "I want to check my flight status"
    is resolved to [AskForPnr]; the state left is reachable, the call is in
    the flight status node, and its trail is still [["main"]]: it has not
    shrunk, but its last element is not the current menu. The digit "2"
    reaches the same node and does extend the trail. *)
Theorem ask_for_pnr_skips_menu_path :
  let w := step rule_based_nlu new_world
             (ReqSpeech "t1" "t2" "c1" "I want to check my flight status") in
  let w2 := step rule_based_nlu new_world (ReqDtmf "t1" "c1" "2") in
  reachable rule_based_nlu w
  /\ (current_menu <$> active_calls w !! "c1") = Some "flight_status"
  /\ (menu_path <$> active_calls w !! "c1") = Some ["main"]
  /\ (forall s, active_calls w !! "c1" = Some s -> ~ path_ends_at_menu s)
  /\ (current_menu <$> active_calls w2 !! "c1") = Some "flight_status"
  /\ (menu_path <$> active_calls w2 !! "c1") = Some ["main"; "flight_status"].
Proof.
  intros w w2.
  assert (Hm : (current_menu <$> active_calls w !! "c1") = Some "flight_status")
    by (vm_compute; reflexivity).
  assert (Hp : (menu_path <$> active_calls w !! "c1") = Some ["main"])
    by (vm_compute; reflexivity).
  split; [ | split; [ exact Hm | split; [ exact Hp | split; [ | split ] ] ] ].
  - apply reach_step; [ apply new_world_reachable | exact I ].
  - intros s Hs. rewrite Hs in Hm, Hp. cbn in Hm, Hp.
    injection Hm as Hm. injection Hp as Hp.
    unfold path_ends_at_menu. rewrite Hm, Hp. discriminate.
  - vm_compute. reflexivity.
  - vm_compute. reflexivity.
Qed.

(** ** STT webhook *)

(** The webhook itself never touches the registries. *)
Lemma stt_callback_keeps_state payload (w : World) :
  snd (fst (stt_callback payload w)) = w.
Proof.
  unfold stt_callback.
  destruct (match payload with JDict d => stt_map_payload d | _ => Return (JNull, JNull) end)
    as [[c t] | e]; [ | reflexivity ].
  destruct (negb (Py.truthy c) || negb (Py.truthy t)).
  - destruct (payload_keys payload); reflexivity.
  - destruct c; try reflexivity. destruct (active_calls w !! s); reflexivity.
Qed.

(** An object from which no call identifier or no transcript comes out is
    refused with status 400, and the detail lists the keys received. *)
Lemma stt_callback_rejects_object d c t (w : World) :
  stt_map_payload d = Return (c, t) ->
  Py.truthy c = false \/ Py.truthy t = false ->
  stt_callback (JDict d) w =
    (Raise (HTTPException 400
              (MsgKeys "Could not parse STT payload. Received keys: " (Py.keys d))),
     w, []).
Proof.
  intros Hmap Hfalsy. unfold stt_callback. rewrite Hmap.
  assert (negb (Py.truthy c) || negb (Py.truthy t) = true) as ->.
  { destruct Hfalsy as [-> | ->]; [ reflexivity | apply orb_true_r ]. }
  reflexivity.
Qed.

Example stt_missing_transcript :
  stt_callback (JDict [("CallSid", JStr "c1")]) new_world =
    (Raise (HTTPException 400
              (MsgKeys "Could not parse STT payload. Received keys: " ["CallSid"])),
     new_world, []).
Proof.
  apply (stt_callback_rejects_object [("CallSid", JStr "c1")] JNull JNull); auto.
Qed.

Example stt_twilio_accepted :
  stt_callback (JDict [("CallSid", JStr "c1"); ("SpeechResult", JStr "hello")]) new_world =
    (Return "accepted", new_world,
     [{| task_call_id := "c1"; task_transcript := JStr "hello" |}]).
Proof. vm_compute. reflexivity. Qed.

(** C8 at the failing inputs: a body that is valid JSON but not an object
    (here the empty array) carries neither a call identifier nor a
    transcript; building the 400 diagnostic calls [keys()] on it and raises
    [AttributeError] instead. An Azure shaped object whose
    ["recognizeResult"] is [null] raises [AttributeError] while it is being
    mapped. In both cases the state is left as it was and no task is
    created, but the error is not the 400 with its diagnostic. *)
Theorem stt_callback_crashes_on_non_object (w : World) :
  stt_callback (JList []) w =
    (Raise (AttributeError "'list' object has no attribute 'keys'"), w, [])
  /\ stt_callback
       (JDict [("callConnectionId", JStr "c1"); ("recognizeResult", JNull)]) w =
     (Raise (AttributeError "'NoneType' object has no attribute 'get'"), w, []).
Proof. split; reflexivity. Qed.

(** ** The rule based classifier *)

Lemma app_nil_end (s : string) : s +:+ "" = s.
Proof. induction s as [ | c s IH ]; [ reflexivity | ]. change (String c (s +:+ "") = String c s). rewrite IH. reflexivity. Qed.

Lemma app_cons c (s t : string) : String c s +:+ t = String c (s +:+ t).
Proof. reflexivity. Qed.

Lemma app_assoc_str (a b c : string) : (a +:+ b) +:+ c = a +:+ (b +:+ c).
Proof.
  induction a as [ | x a IH ]; [ reflexivity | ].
  rewrite !app_cons, IH. reflexivity.
Qed.

Lemma findall_go_nil cur : PyStr.findall_digits_go cur "" = PyStr.flush cur.
Proof. reflexivity. Qed.

Lemma findall_go_digits r : forall cur s,
  PyStr.all_digits r = true ->
  PyStr.findall_digits_go cur (r +:+ s) = PyStr.findall_digits_go (cur +:+ r) s.
Proof.
  induction r as [ | c r IH ]; intros cur s Hr.
  - rewrite app_nil_end. reflexivity.
  - cbn in Hr. apply andb_true_iff in Hr. destruct Hr as [Hc Hr].
    rewrite app_cons. cbn [PyStr.findall_digits_go]. rewrite Hc.
    rewrite IH by assumption. rewrite app_assoc_str. reflexivity.
Qed.

Lemma findall_go_gap g : forall cur s,
  no_digit g = true -> g <> "" ->
  PyStr.findall_digits_go cur (g +:+ s)
  = (PyStr.flush cur ++ PyStr.findall_digits_go "" s)%list.
Proof.
  induction g as [ | c g IH ]; intros cur s Hg Hne; [ congruence | ].
  cbn in Hg. apply andb_true_iff in Hg. destruct Hg as [Hc Hg].
  apply negb_true_iff in Hc.
  rewrite app_cons. cbn [PyStr.findall_digits_go]. rewrite Hc.
  destruct g as [ | c' g' ].
  - reflexivity.
  - rewrite (IH "" s Hg) by discriminate. reflexivity.
Qed.

Lemma findall_go_flat runs :
  well_segmented runs -> PyStr.findall_digits_go "" (flat runs) = map fst runs.
Proof.
  induction runs as [ | [r g] rest IH ]; intros Hwf; [ reflexivity | ].
  destruct Hwf as (Hr & Hd & Hg & Hsep & Hrest). cbn [flat map fst].
  rewrite findall_go_digits by assumption. change ("" +:+ r) with r.
  destruct g as [ | c g ].
  - destruct rest as [ | x rest ]; [ | exfalso; apply Hsep; [ discriminate | reflexivity ] ].
    cbn [flat]. destruct r; [ congruence | reflexivity ].
  - rewrite findall_go_gap by (assumption || discriminate).
    rewrite IH by assumption. destruct r; [ congruence | reflexivity ].
Qed.

(** [re.findall(r"\d+", t)] returns the runs of any segmentation of [t]. *)
Lemma findall_digits_segmentation t g0 runs :
  segmentation t g0 runs -> PyStr.findall_digits t = map fst runs.
Proof.
  intros (-> & Hg & Hwf). unfold PyStr.findall_digits.
  destruct g0 as [ | c g ].
  - apply findall_go_flat. assumption.
  - rewrite findall_go_gap by (assumption || discriminate).
    rewrite findall_go_flat by assumption. reflexivity.
Qed.

(** Every text has a segmentation. *)
Lemma segmentation_exists t : exists g0 runs, segmentation t g0 runs.
Proof.
  assert (H : exists d g runs,
             t = d +:+ g +:+ flat runs
             /\ PyStr.all_digits d = true /\ no_digit g = true
             /\ (runs <> [] -> g <> "") /\ well_segmented runs).
  { induction t as [ | c t IH ].
    - exists "", "", []. cbn. repeat split; auto.
    - destruct IH as (d & g & runs & -> & Hd & Hg & Hsep & Hwf).
      destruct (PyStr.is_digit c) eqn:Hc.
      + exists (String c d), g, runs. cbn. rewrite Hc. repeat split; auto.
      + destruct d as [ | c' d' ].
        * exists "", (String c g), runs. cbn. rewrite Hc. repeat split; auto; discriminate.
        * exists "", (String c ""), ((String c' d', g) :: runs).
          cbn [flat well_segmented no_digit PyStr.all_digits]. rewrite Hc.
          repeat split; auto; discriminate. }
  destruct H as (d & g & runs & -> & Hd & Hg & Hsep & Hwf).
  destruct d as [ | c d ].
  - exists g, runs. repeat split; auto.
  - exists "", ((String c d, g) :: runs). cbn [flat well_segmented no_digit].
    repeat split; auto; discriminate.
Qed.

Lemma lower_char_not_upper c : PyStr.is_upper (PyStr.lower_char c) = false.
Proof. destruct c as [[] [] [] [] [] [] [] []]; reflexivity. Qed.

Lemma lower_no_upper s : str_all (fun c => negb (PyStr.is_upper c)) (PyStr.lower s) = true.
Proof.
  induction s as [ | c s IH ]; [ reflexivity | ].
  cbn. rewrite lower_char_not_upper, IH. reflexivity.
Qed.

Lemma lstrip_keeps p s : str_all p s = true -> str_all p (PyStr.lstrip s) = true.
Proof.
  induction s as [ | c s IH ]; [ auto | ].
  intros H. cbn [PyStr.lstrip]. destruct (PyStr.is_space c); [ | exact H ].
  cbn in H. apply andb_true_iff in H. apply IH. tauto.
Qed.

Lemma rstrip_keeps p s : str_all p s = true -> str_all p (PyStr.rstrip s) = true.
Proof.
  induction s as [ | c s IH ]; [ auto | ].
  intros H. cbn in H. apply andb_true_iff in H. destruct H as [Hc Hs].
  cbn [PyStr.rstrip]. specialize (IH Hs).
  destruct (PyStr.rstrip s) as [ | c' r ].
  - destruct (PyStr.is_space c); cbn; [ reflexivity | rewrite Hc; reflexivity ].
  - cbn [str_all]. rewrite Hc. exact IH.
Qed.

Lemma lstrip_first s : not_space_at (first_char (PyStr.lstrip s)).
Proof.
  induction s as [ | c s IH ]; [ exact I | ].
  cbn [PyStr.lstrip]. destruct (PyStr.is_space c) eqn:Hc; [ exact IH | exact Hc ].
Qed.

Lemma rstrip_first s :
  not_space_at (first_char s) -> not_space_at (first_char (PyStr.rstrip s)).
Proof.
  destruct s as [ | c s ]; [ auto | ].
  cbn [first_char not_space_at PyStr.rstrip]. intros Hc.
  destruct (PyStr.rstrip s); [ rewrite Hc | ]; exact Hc.
Qed.

Lemma rstrip_last s : not_space_at (last_char (PyStr.rstrip s)).
Proof.
  induction s as [ | c s IH ]; [ exact I | ].
  cbn [PyStr.rstrip]. destruct (PyStr.rstrip s) as [ | c' r ].
  - destruct (PyStr.is_space c) eqn:Hc; [ exact I | exact Hc ].
  - exact IH.
Qed.

(** [text.lower().strip()] is normalised. *)
Lemma lower_strip_normalised text : normalised (PyStr.strip (PyStr.lower text)).
Proof.
  unfold normalised, PyStr.strip. split; [ | split ].
  - apply rstrip_keeps, lstrip_keeps, lower_no_upper.
  - apply rstrip_first, lstrip_first.
  - apply rstrip_last.
Qed.

(** On ASCII text, as modelled by [PyStr]: the classifier works on the
    lower-cased, trimmed text [t]; its
    intent and confidence are those of the first keyword group, in the
    order booking, flight status, agent transfer, greeting, end call, one of
    whose keywords occurs in [t]; when no group matches, the result is
    unknown with confidence 0.4 and no entities; entities are empty except
    for flight status; for flight status the [pnr] entity is the first run
    of exactly six digits among the (maximal) digit runs of [t], and is
    [None] when there is no such run. *)
Theorem rule_based_nlu_follows_precedence text :
  let t := PyStr.strip (PyStr.lower text) in
  let r := rule_based_nlu text in
  normalised t
  /\ match first_matching_group t with
     | Some g =>
         intent r = group_intent g /\ confidence r = group_confidence g
         /\ (group_intent g <> "flight_status" -> entities r = ∅)
         /\ (group_intent g = "flight_status" ->
             (exists g0 runs, segmentation t g0 runs)
             /\ forall g0 runs, segmentation t g0 runs ->
                  entities r = {[ "pnr" := first_six_digit_run runs ]}
                  /\ entity_get "pnr" r = first_six_digit_run runs)
     | None => r = {| intent := "unknown"; confidence := 4 # 10; entities := ∅ |}
     end.
Proof.
  intros t r. split; [ apply lower_strip_normalised | ].
  subst r. unfold rule_based_nlu, first_matching_group. fold t.
  cbn [find keyword_groups group_keywords].
  destruct (any_in _ t).
  { cbn. repeat split; auto; discriminate. }
  destruct (any_in _ t).
  { cbn [intent confidence entities group_intent group_confidence].
    repeat split; auto; try congruence.
    - apply segmentation_exists.
    - unfold first_six_digit_run. rewrite (findall_digits_segmentation t g0 runs) by assumption.
      reflexivity.
    - unfold first_six_digit_run, entity_get. cbn [entities].
      rewrite (findall_digits_segmentation t g0 runs) by assumption.
      rewrite lookup_singleton_eq. reflexivity. }
  destruct (any_in _ t).
  { cbn. repeat split; auto; discriminate. }
  destruct (any_in _ t).
  { cbn. repeat split; auto; discriminate. }
  destruct (any_in _ t).
  { cbn. repeat split; auto; discriminate. }
  reflexivity.
Qed.

Example nlu_precedence_booking_first :
  intent (rule_based_nlu "  Book a FLIGHT, thanks ") = "booking_enquiry".
Proof. vm_compute. reflexivity. Qed.

Example nlu_pnr_first_six :
  entity_get "pnr" (rule_based_nlu "flight 12345678 or 111222 or 333444") = Some "111222".
Proof. vm_compute. reflexivity. Qed.

Example nlu_pnr_absent :
  entity_get "pnr" (rule_based_nlu "flight 1234567") = None.
Proof. vm_compute. reflexivity. Qed.

(** * Further properties of the code *)

(** ** The intent table *)

Lemma intent_map_other i :
  i <> "booking_enquiry" -> i <> "flight_status" -> i <> "agent_transfer" ->
  i <> "greeting" -> i <> "end_call" ->
  default unknown_mapping (INTENT_ACTION_MAP !! i) = unknown_mapping.
Proof.
  intros H1 H2 H3 H4 H5. unfold INTENT_ACTION_MAP.
  rewrite !lookup_insert_ne by congruence.
  destruct (decide (i = "unknown")) as [-> | Hne].
  - rewrite lookup_singleton_eq. reflexivity.
  - rewrite lookup_singleton_ne by congruence. reflexivity.
Qed.

(** X1: an intent outside the five the resolver knows (the tag "unknown"
    or any other string a classifier may return) is resolved to [Reprompt]
    with the apology of the "unknown" entry, whatever the entities and the
    session. *)
Theorem unlisted_intent_is_reprompted (r : NluResult) (s : Session) :
  intent r <> "booking_enquiry" -> intent r <> "flight_status" ->
  intent r <> "agent_transfer" -> intent r <> "greeting" ->
  intent r <> "end_call" ->
  map_intent_to_action r s
  = Reprompt "Sorry, I didn't understand. Could you please repeat?".
Proof.
  intros H1 H2 H3 H4 H5. unfold map_intent_to_action.
  rewrite intent_map_other by assumption.
  apply String.eqb_neq in H1, H2, H3, H4, H5.
  rewrite H1, H2, H3, H4, H5. reflexivity.
Qed.

Lemma unlisted_intent_is_reprompted_witness :
  map_intent_to_action
    {| intent := "weather"; confidence := 1 # 2; entities := {[ "pnr" := Some "123456" ]} |}
    new_session
  = Reprompt "Sorry, I didn't understand. Could you please repeat?".
Proof.
  apply (unlisted_intent_is_reprompted
           {| intent := "weather"; confidence := 1 # 2;
              entities := {[ "pnr" := Some "123456" ]} |} new_session);
    discriminate.
Defined.

(** ** What the conversational handler does to a live call *)

(** X2: for a live call and a string transcript (what [simulate_speech]
    and [live_stt] pass) the handler does not raise; it reports status
    "ok", speaks exactly once, the text it reports as spoken, and then
    either hangs up (action "hangup": the call is no longer live and the
    history has one more record) or leaves the call live and the history as
    it was. For a transcript that is not a string (the STT webhook passes
    any truthy value of the body) it stores the turn and raises
    [AttributeError]: nothing is spoken, the call stays live. *)
Theorem handler_speaks_once nlu ts now id v session (w : World) :
  active_calls w !! id = Some session ->
  (forall x, v = JStr x ->
     exists out w' calls,
       handle_transcribed_value nlu ts now id v w = (Return out, w', calls)
       /\ handle_transcribed_text nlu ts now id x w = (Return out, w', calls)
       /\ out_status out = "ok"
       /\ ((out_action out = "hangup"
            /\ calls = [PlayTts id (out_spoken out); HangupCall id]
            /\ active_calls w' !! id = None
            /\ length (call_history w') = S (length (call_history w)))
           \/ (out_action out <> "hangup"
               /\ calls = [PlayTts id (out_spoken out)]
               /\ is_Some (active_calls w' !! id)
               /\ call_history w' = call_history w)))
  /\ ((forall x, v <> JStr x) ->
      handle_transcribed_value nlu ts now id v w =
        (Raise (AttributeError
                  ("'" +:+ py_type_name v +:+ "' object has no attribute 'lower'")),
         store id (append_turn_value v ts session) w, [])).
Proof.
  intros Hs. split.
  - intros x ->. cbn [handle_transcribed_value].
    unfold handle_transcribed_text. rewrite Hs.
    destruct (map_intent_to_action _ _) as [t r | r | r | r | r | r ];
      eexists _, _, _; (split; [ reflexivity | split; [ reflexivity | split; [ reflexivity | ] ] ]);
      cbn [out_action out_spoken action_response];
      try (right; split; [ discriminate | split; [ reflexivity | split;
             [ rewrite lookup_store; eauto | reflexivity ] ] ]).
    left. rewrite hangup_store. cbn [active_calls call_history].
    repeat split; auto.
    + apply lookup_delete_eq.
    + rewrite length_app. cbn. lia.
  - intros Hv. unfold handle_transcribed_value. rewrite Hs.
    destruct v; try reflexivity. exfalso. eapply Hv. reflexivity.
Qed.

Lemma handler_speaks_once_witness :
  (exists out w' calls,
     handle_transcribed_value rule_based_nlu "t1" "t2" "c1" (JStr "goodbye") new_world
       = (Return out, w', calls)
     /\ out_status out = "ok")
  /\ handle_transcribed_value rule_based_nlu "t1" "t2" "c1" (JNum 5) new_world
     = (Raise (AttributeError "'int' object has no attribute 'lower'"),
        store "c1" (append_turn_value (JNum 5) "t1" new_session) new_world, []).
Proof.
  split.
  - destruct (handler_speaks_once rule_based_nlu "t1" "t2" "c1" (JStr "goodbye")
                new_session new_world) as [H _].
    + vm_compute. reflexivity.
    + destruct (H "goodbye" eq_refl) as (out & w' & calls & Hv & _ & Hok & _).
      exists out, w', calls. split; assumption.
  - destruct (handler_speaks_once rule_based_nlu "t1" "t2" "c1" (JNum 5)
                new_session new_world) as [_ H].
    + vm_compute. reflexivity.
    + apply H. discriminate.
Defined.

(** X3: handling a transcript for a live call appends exactly one turn
    (speaker "user", the transcript object, the time stamp) to the call's
    conversation history and keeps the slots, wherever the call ends up: in
    the live store or, after a hang-up, as the last record of the history.
    [last_nlu] becomes the classification of the transcript when it is a
    string, and is left as it was when it is not (the classifier raised). *)
Theorem handler_records_the_turn nlu ts now id v session (w : World) :
  active_calls w !! id = Some session ->
  let w' := snd (fst (handle_transcribed_value nlu ts now id v w)) in
  exists s',
    (active_calls w' !! id = Some s'
     \/ (active_calls w' !! id = None
         /\ call_history w' = (call_history w ++ [s'])%list))
    /\ history (nlp_context s')
       = (history (nlp_context session)
          ++ [{| turn_from := "user"; turn_text := v; turn_ts := ts |}])%list
    /\ last_nlu (nlp_context s')
       = match v with
         | JStr x => Some (nlu x)
         | _ => last_nlu (nlp_context session)
         end
    /\ slots (nlp_context s') = slots (nlp_context session).
Proof.
  intros Hs w'. subst w'.
  assert (Hother : (forall x, v <> JStr x) ->
            exists s',
              (active_calls (snd (fst (handle_transcribed_value nlu ts now id v w))) !! id
               = Some s'
               \/ (active_calls (snd (fst (handle_transcribed_value nlu ts now id v w))) !! id
                   = None
                   /\ call_history (snd (fst (handle_transcribed_value nlu ts now id v w)))
                      = (call_history w ++ [s'])%list))
              /\ history (nlp_context s')
                 = (history (nlp_context session)
                    ++ [{| turn_from := "user"; turn_text := v; turn_ts := ts |}])%list
              /\ last_nlu (nlp_context s') = last_nlu (nlp_context session)
              /\ slots (nlp_context s') = slots (nlp_context session)).
  { intros Hv. exists (append_turn_value v ts session).
    assert (handle_transcribed_value nlu ts now id v w =
              (Raise (AttributeError
                        ("'" +:+ py_type_name v +:+ "' object has no attribute 'lower'")),
               store id (append_turn_value v ts session) w, [])) as ->.
    { unfold handle_transcribed_value. rewrite Hs.
      destruct v; try reflexivity. exfalso. eapply Hv. reflexivity. }
    cbn [fst snd]. split; [ left; apply lookup_store | repeat split; reflexivity ]. }
  destruct v as [ | b | z | x | l | d ];
    try (apply Hother; discriminate).
  cbn [handle_transcribed_value]. unfold handle_transcribed_text. rewrite Hs.
  destruct (map_intent_to_action _ _) as [t r | r | r | r | r | r ]; cbn [fst snd];
    try (eexists; split; [ left; apply lookup_store | repeat split; reflexivity ]).
  rewrite hangup_store. eexists. split.
  - right. cbn [active_calls call_history]. split; [ apply lookup_delete_eq | reflexivity ].
  - repeat split; reflexivity.
Qed.

Lemma handler_records_the_turn_witness :
  exists s',
    active_calls (snd (fst (handle_transcribed_value rule_based_nlu "t1" "t2" "c1"
                              (JNum 5) new_world))) !! "c1" = Some s'
    /\ history (nlp_context s')
       = [{| turn_from := "user"; turn_text := JNum 5; turn_ts := "t1" |}]
    /\ last_nlu (nlp_context s') = None.
Proof.
  destruct (handler_records_the_turn rule_based_nlu "t1" "t2" "c1" (JNum 5)
              new_session new_world) as (s' & Hwhere & Hh & Hn & _).
  - vm_compute. reflexivity.
  - exists s'. split; [ | split; [ exact Hh | exact Hn ] ].
    destruct Hwhere as [Hlive | [Hgone _]]; [ exact Hlive | ].
    vm_compute in Hgone. discriminate Hgone.
Defined.

(** ** Ending a call *)

(** X4: [end_call] never fails: for an identifier that is not live it
    answers "call ended" and changes nothing; hence ending a call twice
    leaves the state of the first ending, with one history record. *)
Theorem end_call_twice now now' id (w : World) :
  (active_calls w !! id = None -> end_call now id w = ("call ended", w))
  /\ end_call now' id (snd (end_call now id w)) = ("call ended", snd (end_call now id w)).
Proof.
  assert (Habsent : forall t v, active_calls v !! id = None ->
                      end_call t id v = ("call ended", v)).
  { intros t v Hnone. unfold end_call. rewrite cleanup_absent by assumption. reflexivity. }
  split; [ apply Habsent | ].
  apply Habsent. unfold end_call, cleanup_call. cbn [snd].
  destruct (active_calls w !! id); cbn [snd active_calls]; apply lookup_delete_eq.
Qed.

Lemma end_call_twice_witness :
  end_call "t1" "nobody" empty_world = ("call ended", empty_world).
Proof.
  destruct (end_call_twice "t1" "t2" "nobody" empty_world) as [H _].
  apply H. reflexivity.
Defined.

(** ** Requests and the registries *)

Lemma outcome_world_others now id (w w' : World) k :
  outcome_world now id w w' -> k <> id -> active_calls w' !! k = active_calls w !! k.
Proof.
  intros Hout Hne. destruct Hout as [ | s s' Hs Hch | s s' Hs Hch ]; cbn.
  - reflexivity.
  - apply lookup_insert_ne. congruence.
  - apply lookup_delete_ne. congruence.
Qed.

Lemma step_others nlu (w : World) r k :
  k <> request_id r ->
  active_calls (step nlu w r) !! k = active_calls w !! k.
Proof.
  intros Hne. pose proof (step_frame nlu w r) as Hframe.
  destruct r as [new_id now caller | now id digit | ts now id x | now id ];
    cbn [request_id] in Hne;
    try (eapply outcome_world_others; eassumption).
  cbn [step]. rewrite start_call_world. cbn. apply lookup_insert_ne. congruence.
Qed.

(** X5: a request changes no call but its own: every other identifier is
    bound after the request to what it was bound to before. *)
Theorem requests_are_isolated nlu (w : World) r k :
  k <> request_id r ->
  active_calls (step nlu w r) !! k = active_calls w !! k.
Proof. apply step_others. Qed.

Lemma requests_are_isolated_witness :
  active_calls (step rule_based_nlu pnr_world (ReqDtmf "t1" "c2" "1")) !! "other"
  = active_calls pnr_world !! "other".
Proof.
  apply (requests_are_isolated rule_based_nlu pnr_world (ReqDtmf "t1" "c2" "1") "other").
  discriminate.
Defined.



(** X7: no call is lost or counted twice. A digit, a transcript or an end
    request keeps the number of calls on record (live calls plus history
    records, as [get_history] reports them); starting a call under a fresh
    identifier adds one. *)
Theorem calls_are_conserved nlu (w : World) r :
  admissible w r ->
  calls_on_record (step nlu w r)
  = match r with
    | ReqStart _ _ _ => S (calls_on_record w)
    | _ => calls_on_record w
    end.
Proof.
  intros Hadm.
  assert (Hout : forall now id w', outcome_world now id w w' ->
            calls_on_record w' = calls_on_record w).
  { intros now id w' H. unfold calls_on_record, get_history. cbn [fst snd].
    destruct H as [ | s s' Hs Hch | s s' Hs Hch ]; cbn [active_calls call_history store].
    - reflexivity.
    - rewrite map_size_insert_Some by eauto. reflexivity.
    - rewrite map_size_delete_Some by eauto. rewrite length_app. cbn [length].
      assert (size (active_calls w) <> 0)
        by (apply (map_size_ne_0_lookup_2 _ id); eauto).
      lia. }
  pose proof (step_frame nlu w r) as Hframe.
  destruct r as [new_id now caller | now id digit | ts now id x | now id ];
    try (eapply Hout; eassumption).
  destruct Hadm as [Hfree _]. cbn [step]. rewrite start_call_world.
  unfold calls_on_record, get_history, store. cbn [fst snd active_calls call_history].
  rewrite map_size_insert_None by assumption. lia.
Qed.

Lemma calls_are_conserved_witness :
  calls_on_record (step rule_based_nlu new_world (ReqSpeech "t1" "t2" "c1" "goodbye"))
  = calls_on_record new_world.
Proof.
  apply (calls_are_conserved rule_based_nlu new_world (ReqSpeech "t1" "t2" "c1" "goodbye")).
  exact I.
Defined.

(** ** End times *)

Lemma outcome_world_open now id (w w' : World) :
  (forall k s, active_calls w !! k = Some s -> ended_at s = None) ->
  outcome_world now id w w' ->
  forall k s, active_calls w' !! k = Some s -> ended_at s = None.
Proof.
  intros Hopen Hout k x. destruct Hout as [ | s s' Hs Hch | s s' Hs Hch ]; cbn.
  - apply Hopen.
  - destruct (decide (id = k)) as [<- | Hne].
    + rewrite lookup_insert_eq. intros [= <-].
      destruct Hch as (_ & He & _). rewrite He. eauto.
    + rewrite lookup_insert_ne by assumption. apply Hopen.
  - intros Hk. apply lookup_delete_Some in Hk. destruct Hk as [_ Hk]. eauto.
Qed.

(** X8: in every reachable state a call is stamped with its end time
    exactly when it is in the history: every live call has no [ended_at]
    and is registered under its own [call_id]; every history record has an
    [ended_at]. *)
Theorem ended_at_marks_the_history nlu (w : World) :
  reachable nlu w ->
  (forall k s, active_calls w !! k = Some s -> ended_at s = None /\ call_id s = k)
  /\ Forall (fun h => is_Some (ended_at h)) (call_history w).
Proof.
  intros Hreach. pose proof (reachable_consistent nlu w Hreach) as [Hlive Hhist].
  split.
  - intros k s Hk. split; [ | apply (Hlive k s Hk) ].
    revert k s Hk. induction Hreach as [ | w r Hr IH Hadm ].
    + intros k s Hk. cbn in Hk. rewrite lookup_empty in Hk. discriminate.
    + pose proof (reachable_consistent nlu w Hr) as Hcons.
      specialize (IH (proj1 Hcons) (proj2 Hcons)).
      pose proof (step_frame nlu w r) as Hframe.
      destruct r as [new_id now caller | now id digit | ts now id x | now id ];
        try (eapply outcome_world_open; eassumption).
      intros k s. cbn [step]. rewrite start_call_world. cbn.
      destruct (decide (new_id = k)) as [<- | Hne].
      * rewrite lookup_insert_eq. intros [= <-]. reflexivity.
      * rewrite lookup_insert_ne by assumption. apply IH.
  - eapply Forall_impl; [ exact Hhist | ]. cbn. tauto.
Qed.

Lemma ended_at_marks_the_history_witness :
  ended_at new_session = None /\ call_id new_session = "c1".
Proof.
  destruct (ended_at_marks_the_history rule_based_nlu new_world) as [H _].
  - apply new_world_reachable.
  - apply (H "c1" new_session). vm_compute. reflexivity.
Defined.

(** ** Fields a request leaves alone *)

Section Preserved.

Context {A : Type} (f : Session -> A).
Hypothesis f_current_menu : forall m s, f (set_current_menu m s) = f s.
Hypothesis f_menu_path : forall p s, f (set_menu_path p s) = f s.
Hypothesis f_status : forall st s, f (set_status st s) = f s.

(** A digit preserves what the assignments of [dtmf_endpoint] preserve. *)
Lemma dtmf_preserves now id digit s s' (w : World) :
  (forall b x, f (set_pnr_buffer b x) = f x) ->
  active_calls w !! id = Some s ->
  active_calls (snd (fst (handle_digit now id digit w))) !! id = Some s' ->
  f s' = f s.
Proof.
  intros f_buffer Hs. unfold handle_digit, dtmf_endpoint. rewrite Hs.
  destruct ((current_menu s =? "flight_status") && PyStr.isdigit digit).
  - destruct (String.length _ =? 6)%nat.
    + cbn [run_tasks fold_left run_task fst snd]. rewrite hangup_store. cbn.
      rewrite lookup_delete_eq. discriminate.
    + cbn [fst snd run_tasks fold_left]. rewrite lookup_store. intros [= <-].
      apply f_buffer.
  - destruct (menu_option (current_menu s) digit) as [opt|].
    2:{ cbn. rewrite Hs. intros [= <-]. reflexivity. }
    destruct (opt_action opt =? "goto_menu").
    { destruct (opt_target opt) as [target|].
      2:{ cbn. rewrite Hs. intros [= <-]. reflexivity. }
      destruct (MENU_STRUCTURE !! target); cbn [fst snd run_tasks fold_left run_task];
        rewrite lookup_store; intros [= <-];
        rewrite f_menu_path, f_current_menu; reflexivity. }
    destruct (opt_action opt =? "transfer_agent").
    { cbn [fst snd run_tasks fold_left run_task]. rewrite lookup_store.
      intros [= <-]. apply f_status. }
    destruct (opt_action opt =? "end_call").
    + cbn [run_tasks fold_left run_task fst snd]. rewrite (hangup_live now id s) by assumption.
      cbn. rewrite lookup_delete_eq. discriminate.
    + cbn. rewrite Hs. intros [= <-]. reflexivity.
Qed.

(** A transcript preserves what the assignments of
    [handle_transcribed_text] preserve. *)
Lemma transcript_preserves nlu ts now id x s s' (w : World) :
  (forall a t y, f (append_turn a t y) = f y) ->
  (forall r y, f (set_last_nlu r y) = f y) ->
  active_calls w !! id = Some s ->
  active_calls (snd (fst (handle_transcribed_text nlu ts now id x w))) !! id = Some s' ->
  f s' = f s.
Proof.
  intros f_turn f_nlu Hs. unfold handle_transcribed_text. rewrite Hs.
  assert (Hheard : f (set_last_nlu (nlu x) (append_turn x ts s)) = f s).
  { rewrite f_nlu, f_turn. reflexivity. }
  destruct (map_intent_to_action _ _) as [t r | r | r | r | r | r ];
    cbn [fst snd];
    try (rewrite hangup_store; cbn [active_calls]; rewrite lookup_delete_eq; discriminate);
    rewrite lookup_store; intros [= <-];
    rewrite ?f_menu_path, ?f_current_menu, ?f_status; exact Hheard.
Qed.

End Preserved.

Lemma end_call_live_unchanged now id k s' (w : World) :
  active_calls (snd (end_call now id w)) !! k = Some s' ->
  active_calls w !! k = Some s'.
Proof.
  unfold end_call, cleanup_call. cbn [snd].
  destruct (active_calls w !! id); cbn [snd active_calls]; intros H;
    apply lookup_delete_Some in H; tauto.
Qed.

Lemma same_identity_refl s : same_identity s s.
Proof. unfold same_identity. tauto. Qed.

(** X9: no request rewrites the identity of a call. A call that is live
    before and after a request (a start under a fresh identifier, a digit,
    a transcript, an end request) has the same [call_id], [caller],
    [created_at], [conv_mode], [ended_at] and slots. *)
Theorem identity_is_never_rewritten nlu (w : World) r k s s' :
  admissible w r ->
  active_calls w !! k = Some s ->
  active_calls (step nlu w r) !! k = Some s' ->
  same_identity s s'.
Proof.
  intros Hadm Hs Hs'.
  destruct (decide (k = request_id r)) as [-> | Hne].
  2:{ rewrite step_others in Hs' by assumption.
      rewrite Hs in Hs'. injection Hs' as <-. apply same_identity_refl. }
  destruct r as [new_id now caller | now id digit | ts now id x | now id ];
    cbn [request_id step] in *.
  - destruct Hadm as [Hfree _]. congruence.
  - unfold same_identity. repeat split;
      [ apply (dtmf_preserves call_id) with (5 := Hs) (6 := Hs')
      | apply (dtmf_preserves caller) with (5 := Hs) (6 := Hs')
      | apply (dtmf_preserves created_at) with (5 := Hs) (6 := Hs')
      | apply (dtmf_preserves conv_mode) with (5 := Hs) (6 := Hs')
      | apply (dtmf_preserves ended_at) with (5 := Hs) (6 := Hs')
      | apply (dtmf_preserves (fun y => slots (nlp_context y))) with (5 := Hs) (6 := Hs') ];
      reflexivity.
  - unfold same_identity. repeat split;
      [ apply (transcript_preserves call_id) with (6 := Hs) (7 := Hs')
      | apply (transcript_preserves caller) with (6 := Hs) (7 := Hs')
      | apply (transcript_preserves created_at) with (6 := Hs) (7 := Hs')
      | apply (transcript_preserves conv_mode) with (6 := Hs) (7 := Hs')
      | apply (transcript_preserves ended_at) with (6 := Hs) (7 := Hs')
      | apply (transcript_preserves (fun y => slots (nlp_context y))) with (6 := Hs) (7 := Hs') ];
      reflexivity.
  - apply end_call_live_unchanged in Hs'. rewrite Hs in Hs'. injection Hs' as <-.
    apply same_identity_refl.
Qed.

Lemma identity_is_never_rewritten_witness :
  same_identity new_session
    (set_menu_path ["main"; "booking"] (set_current_menu "booking" new_session)).
Proof.
  apply (identity_is_never_rewritten rule_based_nlu new_world (ReqDtmf "t1" "c1" "1") "c1").
  - exact I.
  - vm_compute. reflexivity.
  - vm_compute. reflexivity.
Defined.

(** X10: a transcript never touches the digit buffer: whatever it is
    resolved to, a call still live afterwards has the [pnr_buffer] it had,
    so digits keyed in before a voice turn stay in the buffer. *)
Theorem transcript_keeps_the_digit_buffer nlu ts now id x s s' (w : World) :
  active_calls w !! id = Some s ->
  active_calls (snd (fst (handle_transcribed_text nlu ts now id x w))) !! id = Some s' ->
  pnr_buffer s' = pnr_buffer s.
Proof.
  intros Hs Hs'.
  apply (transcript_preserves pnr_buffer) with (6 := Hs) (7 := Hs'); reflexivity.
Qed.

Lemma transcript_keeps_the_digit_buffer_witness :
  match active_calls (snd (fst (handle_transcribed_text rule_based_nlu "t1" "t2" "c2"
                                  "I need a ticket"
                                  (store "c2" (set_pnr_buffer "12" pnr_session) empty_world))))
          !! "c2" with
  | Some s' => pnr_buffer s' = "12"
  | None => False
  end.
Proof.
  destruct (active_calls _ !! "c2") as [s'|] eqn:Hs'.
  - apply (transcript_keeps_the_digit_buffer rule_based_nlu "t1" "t2" "c2" "I need a ticket"
             (set_pnr_buffer "12" pnr_session) s'
             (store "c2" (set_pnr_buffer "12" pnr_session) empty_world)).
    + vm_compute. reflexivity.
    + exact Hs'.
  - vm_compute in Hs'. discriminate Hs'.
Defined.

(** X11: a digit never touches the conversation: a call still live after a
    DTMF request has the [nlp_context] (turns, slots, last classification)
    it had; digits are not logged as turns. *)
Theorem digit_keeps_the_conversation now id digit s s' (w : World) :
  active_calls w !! id = Some s ->
  active_calls (snd (fst (handle_digit now id digit w))) !! id = Some s' ->
  nlp_context s' = nlp_context s.
Proof.
  intros Hs Hs'.
  apply (dtmf_preserves nlp_context) with (5 := Hs) (6 := Hs'); reflexivity.
Qed.

Lemma digit_keeps_the_conversation_witness :
  nlp_context (set_menu_path ["main"; "flight_status"]
                 (set_current_menu "flight_status" new_session))
  = nlp_context new_session.
Proof.
  apply (digit_keeps_the_conversation "t1" "c1" "2" new_session
           (set_menu_path ["main"; "flight_status"]
              (set_current_menu "flight_status" new_session)) new_world).
  - vm_compute. reflexivity.
  - vm_compute. reflexivity.
Defined.


(** ** The catalog *)

(** Every option of the catalog that navigates names a node of the
    catalog. *)
Lemma catalog_closed m d opt :
  menu_option m d = Some opt ->
  opt_action opt = "goto_menu" ->
  exists t, opt_target opt = Some t /\ is_Some (MENU_STRUCTURE !! t).
Proof.
  unfold menu_option.
  destruct (MENU_STRUCTURE !! m) as [node|] eqn:Hn; [ | discriminate ].
  unfold MENU_STRUCTURE in Hn.
  repeat (apply lookup_insert_Some in Hn; destruct Hn as [[<- <-] | [_ Hn]]);
    try (apply lookup_singleton_Some in Hn; destruct Hn as [<- <-]);
    cbn [options]; intros Hopt;
    repeat (apply lookup_insert_Some in Hopt; destruct Hopt as [[<- <-] | [_ Hopt]]);
    try (apply lookup_singleton_Some in Hopt; destruct Hopt as [<- <-]);
    cbn; intros Hact; try discriminate Hact;
    eexists; (split; [ reflexivity | vm_compute; eauto ]).
Qed.

Lemma resolver_goes_to_booking r s t resp :
  map_intent_to_action r s = GotoMenu t resp -> t = "booking".
Proof.
  unfold map_intent_to_action.
  destruct (intent r =? "flight_status").
  { destruct (entity_get "pnr" r) as [p|]; [ destruct (PyStr.truthy p) | ]; discriminate. }
  destruct (intent r =? "booking_enquiry"); [ intros [= <- _]; reflexivity | ].
  destruct (intent r =? "agent_transfer"); [ discriminate | ].
  destruct (intent r =? "end_call"); [ discriminate | ].
  destruct (intent r =? "greeting"); discriminate.
Qed.

Lemma dtmf_keeps_menu_valid now id digit s s' (w : World) :
  active_calls w !! id = Some s -> valid_menu s ->
  active_calls (snd (fst (handle_digit now id digit w))) !! id = Some s' ->
  valid_menu s'.
Proof.
  intros Hs Hv. unfold handle_digit, dtmf_endpoint. rewrite Hs.
  destruct ((current_menu s =? "flight_status") && PyStr.isdigit digit).
  - destruct (String.length _ =? 6)%nat.
    + cbn [run_tasks fold_left run_task fst snd]. rewrite hangup_store. cbn.
      rewrite lookup_delete_eq. discriminate.
    + cbn [fst snd run_tasks fold_left]. rewrite lookup_store. intros [= <-]. exact Hv.
  - destruct (menu_option (current_menu s) digit) as [opt|] eqn:Hopt.
    2:{ cbn. rewrite Hs. intros [= <-]. exact Hv. }
    destruct (opt_action opt =? "goto_menu") eqn:Hgoto.
    { apply String.eqb_eq in Hgoto.
      destruct (catalog_closed _ _ _ Hopt Hgoto) as (t & -> & node & Hnode).
      rewrite Hnode. cbn [fst snd run_tasks fold_left run_task].
      rewrite lookup_store. intros [= <-]. unfold valid_menu. cbn. rewrite Hnode. eauto. }
    destruct (opt_action opt =? "transfer_agent").
    { cbn [fst snd run_tasks fold_left run_task]. rewrite lookup_store.
      intros [= <-]. exact Hv. }
    destruct (opt_action opt =? "end_call").
    + cbn [run_tasks fold_left run_task fst snd]. rewrite (hangup_live now id s) by assumption.
      cbn. rewrite lookup_delete_eq. discriminate.
    + cbn. rewrite Hs. intros [= <-]. exact Hv.
Qed.

Lemma transcript_keeps_menu_valid nlu ts now id x s s' (w : World) :
  active_calls w !! id = Some s -> valid_menu s ->
  active_calls (snd (fst (handle_transcribed_text nlu ts now id x w))) !! id = Some s' ->
  valid_menu s'.
Proof.
  intros Hs Hv. unfold handle_transcribed_text. rewrite Hs.
  destruct (map_intent_to_action _ _) as [t r | r | r | r | r | r ] eqn:Hact;
    cbn [fst snd];
    try (rewrite hangup_store; cbn [active_calls]; rewrite lookup_delete_eq; discriminate);
    rewrite lookup_store; intros [= <-]; try exact Hv.
  - apply resolver_goes_to_booking in Hact. subst t. vm_compute. eauto.
  - vm_compute. eauto.
Qed.

(** X13: in every reachable state, whatever the classifier, the current
    menu of every live call is a node of the catalog. *)
Theorem current_menu_is_in_the_catalog nlu (w : World) k s :
  reachable nlu w ->
  active_calls w !! k = Some s ->
  valid_menu s.
Proof.
  intros Hreach. revert k s. induction Hreach as [ | w r Hr IH Hadm ]; intros k s Hk.
  - cbn in Hk. rewrite lookup_empty in Hk. discriminate.
  - destruct (decide (k = request_id r)) as [-> | Hne].
    2:{ rewrite step_others in Hk by assumption. eauto. }
    destruct r as [new_id now caller | now id digit | ts now id x | now id ];
      cbn [request_id step] in Hk.
    + rewrite start_call_world, lookup_store in Hk. injection Hk as <-. vm_compute. eauto.
    + destruct (active_calls w !! id) as [s0|] eqn:Hs0.
      * eapply dtmf_keeps_menu_valid; eauto.
      * rewrite handle_digit_unknown in Hk by assumption. cbn in Hk. congruence.
    + destruct (active_calls w !! id) as [s0|] eqn:Hs0.
      * eapply transcript_keeps_menu_valid; eauto.
      * rewrite handle_transcribed_text_unknown in Hk by assumption. cbn in Hk. congruence.
    + apply end_call_live_unchanged in Hk. eauto.
Qed.

Lemma current_menu_is_in_the_catalog_witness : valid_menu new_session.
Proof.
  apply (current_menu_is_in_the_catalog rule_based_nlu new_world "c1" new_session).
  - apply new_world_reachable.
  - vm_compute. reflexivity.
Defined.

(** ** The size of the digit buffer *)

Lemma length_app_str (a b : string) :
  String.length (a +:+ b) = String.length a + String.length b.
Proof.
  induction a as [ | c a IH ]; [ reflexivity | ].
  rewrite app_cons. cbn [String.length]. rewrite IH. reflexivity.
Qed.

Lemma isdigit_not_empty d : PyStr.isdigit d = true -> 0 < String.length d.
Proof. destruct d; [ discriminate | cbn; lia ]. Qed.

(** X14: as long as the digits arrive one character at a time the buffer
    stays below the PNR width: a live call whose buffer has fewer than six
    characters has, if it is still live after a one-character DTMF request,
    a buffer of fewer than six characters. *)
Theorem buffer_stays_below_six now id digit s s' (w : World) :
  active_calls w !! id = Some s ->
  String.length (pnr_buffer s) < 6 ->
  String.length digit = 1 ->
  active_calls (snd (fst (handle_digit now id digit w))) !! id = Some s' ->
  String.length (pnr_buffer s') < 6.
Proof.
  intros Hs Hlen Hone.
  destruct ((current_menu s =? "flight_status") && PyStr.isdigit digit) eqn:Hslot.
  - apply andb_true_iff in Hslot. destruct Hslot as [Hm Hd].
    apply String.eqb_eq in Hm.
    destruct (Nat.eq_dec (String.length (pnr_buffer s +:+ digit)) 6) as [H6 | H6].
    + unfold handle_digit. rewrite (dtmf_slot_done id digit s w) by assumption.
      cbn [run_tasks fold_left run_task fst snd]. rewrite hangup_store. cbn.
      rewrite lookup_delete_eq. discriminate.
    + unfold handle_digit. rewrite (dtmf_slot_more id digit s w) by assumption.
      cbn [run_tasks fold_left fst snd]. rewrite lookup_store. intros [= <-].
      cbn [pnr_buffer set_pnr_buffer]. rewrite length_app_str in *. lia.
  - intros Hs'. unfold handle_digit, dtmf_endpoint in Hs'. rewrite Hs, Hslot in Hs'.
    destruct (menu_option (current_menu s) digit) as [opt|].
    2:{ cbn in Hs'. rewrite Hs in Hs'. injection Hs' as <-. exact Hlen. }
    destruct (opt_action opt =? "goto_menu").
    { destruct (opt_target opt) as [target|].
      2:{ cbn in Hs'. rewrite Hs in Hs'. injection Hs' as <-. exact Hlen. }
      destruct (MENU_STRUCTURE !! target); cbn [fst snd run_tasks fold_left run_task] in Hs';
        rewrite lookup_store in Hs'; injection Hs' as <-; exact Hlen. }
    destruct (opt_action opt =? "transfer_agent").
    { cbn [fst snd run_tasks fold_left run_task] in Hs'. rewrite lookup_store in Hs'.
      injection Hs' as <-. exact Hlen. }
    destruct (opt_action opt =? "end_call").
    + cbn [run_tasks fold_left run_task fst snd] in Hs'.
      rewrite (hangup_live now id s) in Hs' by assumption.
      cbn in Hs'. rewrite lookup_delete_eq in Hs'. discriminate.
    + cbn in Hs'. rewrite Hs in Hs'. injection Hs' as <-. exact Hlen.
Qed.

Lemma buffer_stays_below_six_witness :
  String.length (pnr_buffer (set_pnr_buffer "7" pnr_session)) < 6.
Proof.
  apply (buffer_stays_below_six "t1" "c2" "7" pnr_session
           (set_pnr_buffer "7" pnr_session) pnr_world).
  - vm_compute. reflexivity.
  - cbn. lia.
  - reflexivity.
  - vm_compute. reflexivity.
Defined.

(** X15: the digit field is a string of any length, and a numeric input
    that takes the buffer past six characters is kept: the reply counts a
    negative number of digits to go, no task is created, the call stays
    live in the flight status node with the longer buffer, and from then on
    every numeric input overshoots again, so the PNR lookup of this call can
    no longer be triggered by digits. *)
Theorem buffer_overshoot_is_kept now id digit s (w : World) :
  active_calls w !! id = Some s ->
  current_menu s = "flight_status" ->
  PyStr.isdigit digit = true ->
  6 < String.length (pnr_buffer s +:+ digit) ->
  let s' := set_pnr_buffer (pnr_buffer s +:+ digit) s in
  handle_digit now id digit w =
    (Return (message_only
       ("Received digit. "
        +:+ pretty (6 - Z.of_nat (String.length (pnr_buffer s +:+ digit)))%Z
        +:+ " digits to go.")),
     store id s' w, [])
  /\ (6 - Z.of_nat (String.length (pnr_buffer s +:+ digit)) < 0)%Z
  /\ current_menu s' = "flight_status"
  /\ forall digit', PyStr.isdigit digit' = true ->
       6 < String.length (pnr_buffer s' +:+ digit').
Proof.
  intros Hs Hm Hd Hlen s'. split; [ | split; [ lia | split; [ exact Hm | ] ] ].
  - unfold handle_digit. rewrite (dtmf_slot_more id digit s w) by (auto; lia).
    reflexivity.
  - intros digit' Hd'. subst s'. cbn [pnr_buffer set_pnr_buffer].
    rewrite length_app_str. lia.
Qed.

Lemma buffer_overshoot_is_kept_witness :
  handle_digit "t1" "c2" "1234567" pnr_world =
    (Return (message_only "Received digit. -1 digits to go."),
     store "c2" (set_pnr_buffer "1234567" pnr_session) pnr_world, []).
Proof.
  destruct (buffer_overshoot_is_kept "t1" "c2" "1234567" pnr_session pnr_world) as [H _].
  - vm_compute. reflexivity.
  - reflexivity.
  - reflexivity.
  - vm_compute. lia.
  - exact H.
Defined.

(** ** What the STT webhook accepts *)

(** X16: the webhook answers "accepted" only for an object that yields a
    string call identifier of a live call and a non-empty transcript; it
    then creates exactly one handling task, for that call and transcript,
    and leaves the state as it is. *)
Theorem stt_accepts_only_live_calls payload (w w' : World) reply tasks :
  stt_callback payload w = (Return reply, w', tasks) ->
  reply = "accepted" /\ w' = w
  /\ (exists d, payload = JDict d)
  /\ exists id t,
       tasks = [{| task_call_id := id; task_transcript := t |}]
       /\ is_Some (active_calls w !! id) /\ Py.truthy t = true.
Proof.
  unfold stt_callback.
  destruct (match payload with JDict d => stt_map_payload d | _ => Return (JNull, JNull) end)
    as [[c t] | e] eqn:Hmap; [ | discriminate ].
  destruct (negb (Py.truthy c) || negb (Py.truthy t)) eqn:Hfalsy.
  { destruct (payload_keys payload); discriminate. }
  apply orb_false_iff in Hfalsy. destruct Hfalsy as [Hc Ht].
  apply negb_false_iff in Hc, Ht.
  destruct c as [ | b | z | id | l | m ]; try discriminate.
  destruct (active_calls w !! id) as [live|] eqn:Hlive; [ | discriminate ].
  intros [= <- <- <-]. repeat split; auto.
  - destruct payload; try discriminate Hmap. eauto.
  - exists id, t. repeat split; eauto.
Qed.

Lemma stt_accepts_only_live_calls_witness :
  exists id t,
    [{| task_call_id := "c1"; task_transcript := JStr "hello" |}]
    = [{| task_call_id := id; task_transcript := t |}]
    /\ is_Some (active_calls new_world !! id) /\ Py.truthy t = true.
Proof.
  destruct (stt_accepts_only_live_calls
              (JDict [("CallSid", JStr "c1"); ("SpeechResult", JStr "hello")])
              new_world new_world "accepted"
              [{| task_call_id := "c1"; task_transcript := JStr "hello" |}])
    as (_ & _ & _ & H).
  - vm_compute. reflexivity.
  - exact H.
Defined.

(** X17: the call identifier is only ever read from the Azure pair
    (["callConnectionId"] with ["recognizeResult"]) or the Twilio pair
    (["CallSid"] with ["SpeechResult"]). An object with neither pair
    complete is refused with status 400 and the list of its keys, whatever
    else it holds, a ["transcript"] and a ["call_id"] included. *)
Theorem stt_needs_a_provider_pair d (w : World) :
  Py.has_key "callConnectionId" d && Py.has_key "recognizeResult" d = false ->
  Py.has_key "CallSid" d && Py.has_key "SpeechResult" d = false ->
  stt_callback (JDict d) w =
    (Raise (HTTPException 400
              (MsgKeys "Could not parse STT payload. Received keys: " (Py.keys d))),
     w, []).
Proof.
  intros Hazure Htwilio. unfold stt_callback, stt_map_payload.
  rewrite Hazure. cbn [Py.truthy negb].
  rewrite andb_true_l, Htwilio. cbn [Py.truthy negb orb]. reflexivity.
Qed.

Lemma stt_needs_a_provider_pair_witness :
  stt_callback (JDict [("call_id", JStr "c1"); ("transcript", JStr "hello")]) new_world =
    (Raise (HTTPException 400
              (MsgKeys "Could not parse STT payload. Received keys: "
                 ["call_id"; "transcript"])),
     new_world, []).
Proof.
  apply (stt_needs_a_provider_pair [("call_id", JStr "c1"); ("transcript", JStr "hello")]
           new_world); reflexivity.
Defined.

(** ** The PNR entity *)

Lemma well_segmented_digits runs :
  well_segmented runs ->
  Forall (fun r => PyStr.isdigit r = true) (map fst runs).
Proof.
  induction runs as [ | [r g] rest IH ]; intros Hwf; [ constructor | ].
  destruct Hwf as (Hr & Hd & _ & _ & Hrest). cbn [map fst]. constructor; [ | auto ].
  destruct r; [ congruence | exact Hd ].
Qed.

Lemma findall_digits_are_digits t :
  Forall (fun r => PyStr.isdigit r = true) (PyStr.findall_digits t).
Proof.
  destruct (segmentation_exists t) as (g0 & runs & Hseg).
  rewrite (findall_digits_segmentation t g0 runs Hseg).
  apply well_segmented_digits. apply Hseg.
Qed.

(** ** Keywords and trimming *)

Lemma prefix_nil (t : string) : String.prefix "" t = true.
Proof. destruct t; reflexivity. Qed.

Lemma prefix_cons a x c t :
  String.prefix (String a x) (String c t) = true <-> a = c /\ String.prefix x t = true.
Proof.
  cbn [String.prefix]. destruct (ascii_dec a c) as [-> | Hne].
  - tauto.
  - split; [ discriminate | intros [E _]; congruence ].
Qed.

Lemma contains_cons x c t :
  PyStr.contains x (String c t) = String.prefix x (String c t) || PyStr.contains x t.
Proof. reflexivity. Qed.

Lemma contains_lstrip x t :
  well_edged x -> PyStr.contains x (PyStr.lstrip t) = PyStr.contains x t.
Proof.
  intros (Hne & Hfirst & _). induction t as [ | c t IH ]; [ reflexivity | ].
  cbn [PyStr.lstrip]. destruct (PyStr.is_space c) eqn:Hc; [ | reflexivity ].
  rewrite IH, contains_cons.
  destruct x as [ | a x ]; [ congruence | ].
  assert (String.prefix (String a x) (String c t) = false) as ->; [ | reflexivity ].
  apply not_true_is_false. intros Hp. apply prefix_cons in Hp. destruct Hp as [-> _].
  cbn in Hfirst. congruence.
Qed.

Lemma prefix_rstrip x : forall t,
  x <> "" -> not_space_at (last_char x) ->
  String.prefix x (PyStr.rstrip t) = String.prefix x t.
Proof.
  induction x as [ | a x IH ]; intros t Hne Hlast; [ congruence | ].
  destruct t as [ | c t ]; [ reflexivity | ].
  cbn [PyStr.rstrip].
  destruct x as [ | b x ].
  - cbn in Hlast.
    destruct (PyStr.rstrip t) as [ | c' r ].
    + destruct (PyStr.is_space c) eqn:Hc.
      * cbn [String.prefix]. destruct (ascii_dec a c) as [-> | ]; [ congruence | reflexivity ].
      * cbn [String.prefix]. destruct (ascii_dec a c); [ rewrite !prefix_nil | ]; reflexivity.
    + cbn [String.prefix]. destruct (ascii_dec a c); [ rewrite !prefix_nil | ]; reflexivity.
  - specialize (IH t). assert (Hx : String b x <> "") by discriminate.
    specialize (IH Hx Hlast).
    destruct (PyStr.rstrip t) as [ | c' r ].
    + assert (Hfalse : String.prefix (String a (String b x)) (String c t) = false).
      { cbn [String.prefix]. destruct (ascii_dec a c); [ | reflexivity ].
        rewrite <- IH. reflexivity. }
      rewrite Hfalse. destruct (PyStr.is_space c); [ reflexivity | ].
      cbn [String.prefix]. destruct (ascii_dec a c); reflexivity.
    + cbn [String.prefix] in *. destruct (ascii_dec a c); [ exact IH | reflexivity ].
Qed.

Lemma contains_nil x : x <> "" -> PyStr.contains x "" = false.
Proof. destruct x; [ congruence | reflexivity ]. Qed.

Lemma contains_rstrip x t :
  well_edged x -> PyStr.contains x (PyStr.rstrip t) = PyStr.contains x t.
Proof.
  intros (Hne & _ & Hlast). induction t as [ | c t IH ]; [ reflexivity | ].
  pose proof (prefix_rstrip x (String c t) Hne Hlast) as Hp.
  rewrite contains_cons, <- IH, <- Hp. cbn [PyStr.rstrip].
  destruct (PyStr.rstrip t) as [ | c' r ] eqn:Hr.
  - rewrite (contains_nil x Hne), orb_false_r.
    destruct (PyStr.is_space c).
    + destruct x; [ congruence | reflexivity ].
    + rewrite contains_cons, (contains_nil x Hne), orb_false_r. reflexivity.
  - rewrite contains_cons. reflexivity.
Qed.

Lemma contains_strip x t :
  well_edged x -> PyStr.contains x (PyStr.strip t) = PyStr.contains x t.
Proof.
  intros Hx. unfold PyStr.strip. rewrite contains_rstrip, contains_lstrip by assumption.
  reflexivity.
Qed.

Lemma any_in_strip kws t :
  Forall well_edged kws -> any_in kws (PyStr.strip t) = any_in kws t.
Proof.
  unfold any_in. induction 1 as [ | x kws Hx _ IH ]; [ reflexivity | ].
  cbn [existsb]. rewrite contains_strip, IH by assumption. reflexivity.
Qed.

Lemma keywords_well_edged :
  Forall (fun g => Forall well_edged (group_keywords g)) keyword_groups.
Proof.
  repeat constructor; cbn; discriminate.
Qed.

Lemma first_matching_group_strip t :
  first_matching_group (PyStr.strip t) = first_matching_group t.
Proof.
  unfold first_matching_group. pose proof keywords_well_edged as Hall.
  induction Hall as [ | g gs Hg _ IH ]; [ reflexivity | ].
  cbn [find]. rewrite any_in_strip, IH by assumption. reflexivity.
Qed.

(** X19: trimming never decides the intent. The intent of a text is the
    intent of the first keyword group, in precedence order, with a keyword
    occurring in the lower-cased text as given (and "unknown" if none
    does): surrounding white space cannot add or remove a match. *)
Theorem intent_ignores_trimming text :
  intent (rule_based_nlu text) = group_intent_of (PyStr.lower text).
Proof.
  unfold group_intent_of. rewrite <- first_matching_group_strip.
  unfold rule_based_nlu, first_matching_group.
  set (t := PyStr.strip (PyStr.lower text)).
  cbn [find keyword_groups group_keywords].
  repeat (destruct (any_in _ t); [ reflexivity | ]).
  reflexivity.
Qed.

(** ** Texts without letters *)

Lemma lower_no_letters t : no_letters t = true -> PyStr.lower t = t.
Proof.
  unfold no_letters. induction t as [ | c t IH ]; [ reflexivity | ].
  cbn [str_all PyStr.lower]. intros H. apply andb_true_iff in H. destruct H as [Hc Ht].
  rewrite IH by assumption. f_equal.
  unfold PyStr.lower_char. unfold is_letter in Hc.
  destruct (PyStr.is_upper c); [ discriminate | reflexivity ].
Qed.

Lemma contains_no_letters a k t :
  is_letter a = true -> no_letters t = true -> PyStr.contains (String a k) t = false.
Proof.
  intros Ha. unfold no_letters. induction t as [ | c t IH ]; [ reflexivity | ].
  cbn [str_all]. intros H. apply andb_true_iff in H. destruct H as [Hc Ht].
  rewrite contains_cons, IH by assumption. rewrite orb_false_r.
  apply not_true_is_false. intros Hp. apply prefix_cons in Hp. destruct Hp as [-> _].
  rewrite Ha in Hc. discriminate.
Qed.

Lemma any_in_no_letters kws t :
  Forall (fun x => exists a k, x = String a k /\ is_letter a = true) kws ->
  no_letters t = true ->
  any_in kws t = false.
Proof.
  intros Hk Ht. unfold any_in. induction Hk as [ | x kws (a & k & -> & Ha) _ IH ];
    [ reflexivity | ].
  cbn [existsb]. rewrite contains_no_letters, IH by assumption. reflexivity.
Qed.

Ltac keywords_start_with_letters :=
  repeat (constructor; [ eexists _, _; split; reflexivity | ]); constructor.

(** X20: a text without any ASCII letter (the empty text, a PNR spoken on
    its own such as "654321", digits with spaces or punctuation) matches no
    keyword: the classifier returns unknown with confidence 0.4 and no
    entities, and the resolver asks to repeat, so a bare number never fills
    the PNR by voice. *)
Theorem text_without_letters_is_unknown text :
  no_letters text = true ->
  rule_based_nlu text = {| intent := "unknown"; confidence := 4 # 10; entities := ∅ |}
  /\ forall s, map_intent_to_action (rule_based_nlu text) s
               = Reprompt "Sorry, I didn't understand. Could you please repeat?".
Proof.
  intros Hno.
  assert (Ht : no_letters (PyStr.strip (PyStr.lower text)) = true).
  { rewrite lower_no_letters by assumption. unfold PyStr.strip.
    apply rstrip_keeps, lstrip_keeps. exact Hno. }
  assert (Hres : rule_based_nlu text
                 = {| intent := "unknown"; confidence := 4 # 10; entities := ∅ |}).
  { unfold rule_based_nlu.
    rewrite !(any_in_no_letters _ _) by (assumption || keywords_start_with_letters).
    reflexivity. }
  split; [ exact Hres | ]. intros s. rewrite Hres. reflexivity.
Qed.

Lemma text_without_letters_is_unknown_witness :
  rule_based_nlu "654 321" = {| intent := "unknown"; confidence := 4 # 10; entities := ∅ |}.
Proof.
  destruct (text_without_letters_is_unknown "654 321") as [H _].
  - reflexivity.
  - exact H.
Defined.

(** ** Live STT injection *)

Lemma handler_live_returns nlu ts now id x session (w : World) :
  active_calls w !! id = Some session ->
  exists out w' calls,
    handle_transcribed_text nlu ts now id x w = (Return out, w', calls).
Proof.
  intros Hs. unfold handle_transcribed_text. rewrite Hs.
  destruct (map_intent_to_action _ _); eexists _, _, _; reflexivity.
Qed.

(** X21: speech that is not recognised never reaches the dialog. For a
    live call, when the recognizer reports no match or a cancellation, or
    recognises an empty text, [live_stt] answers "no_speech_detected",
    changes nothing and makes no provider call; otherwise it answers with
    the recognised text and the handler's outcome, and never raises. *)
Theorem live_stt_needs_speech nlu ts now d id session result (w : World) :
  Py.get "call_id" d = JStr id ->
  active_calls w !! id = Some session ->
  (reason result <> RecognizedSpeech \/ text result = "" ->
   live_stt nlu ts now (JDict d) result w = (Return NoSpeechDetected, w, []))
  /\ (reason result = RecognizedSpeech -> text result <> "" ->
      exists out w' calls,
        handle_transcribed_text nlu ts now id (text result) w = (Return out, w', calls)
        /\ live_stt nlu ts now (JDict d) result w
           = (Return (Injected (text result) out), w', calls)).
Proof.
  intros Hid Hs. unfold live_stt, body_call_id. rewrite Hid, Hs. split.
  - intros Hsilent.
    assert (transcribe_speech result = "") as ->; [ | reflexivity ].
    unfold transcribe_speech. destruct Hsilent as [Hr | Ht].
    + destruct (reason result); [ congruence | reflexivity | reflexivity ].
    + destruct (reason result); [ exact Ht | reflexivity | reflexivity ].
  - intros Hr Ht. unfold transcribe_speech. rewrite Hr.
    destruct (text result) as [ | c t ] eqn:Htext; [ congruence | ].
    cbn [PyStr.truthy negb].
    destruct (handler_live_returns nlu ts now id (String c t) session w Hs)
      as (out & w' & calls & Hh).
    rewrite Hh. eauto.
Qed.

Lemma live_stt_needs_speech_witness :
  live_stt rule_based_nlu "t1" "t2" (JDict [("call_id", JStr "c1")])
    {| reason := NoMatch; text := "hello" |} new_world
  = (Return NoSpeechDetected, new_world, []).
Proof.
  destruct (live_stt_needs_speech rule_based_nlu "t1" "t2" [("call_id", JStr "c1")] "c1"
              new_session {| reason := NoMatch; text := "hello" |} new_world) as [H _].
  - reflexivity.
  - vm_compute. reflexivity.
  - apply H. left. discriminate.
Defined.

(** ** Dead ends of the booking menu *)

(** X22: the two booking choices do nothing. In the booking menu the
    digits "1" (domestic) and "2" (international) are mapped by the catalog,
    but to actions the endpoint does not handle: the reply is "Unhandled
    DTMF action", the messages of the options are never spoken, no task is
    created and the state is unchanged. *)
Theorem booking_choices_are_unhandled now id digit call (w : World) :
  active_calls w !! id = Some call ->
  current_menu call = "booking" ->
  digit = "1" \/ digit = "2" ->
  is_Some (menu_option "booking" digit)
  /\ handle_digit now id digit w = (Return (message_only "Unhandled DTMF action"), w, []).
Proof.
  intros Hcall Hmenu Hdigit. split.
  - destruct Hdigit as [-> | ->]; vm_compute; eauto.
  - unfold handle_digit, dtmf_endpoint. rewrite Hcall, Hmenu.
    destruct Hdigit as [-> | ->]; reflexivity.
Qed.

Lemma booking_choices_are_unhandled_witness :
  handle_digit "t1" "c1" "1" (store "c1" booking_session empty_world)
  = (Return (message_only "Unhandled DTMF action"), store "c1" booking_session empty_world, []).
Proof.
  destruct (booking_choices_are_unhandled "t1" "c1" "1" booking_session
              (store "c1" booking_session empty_world)) as [_ H].
  - vm_compute. reflexivity.
  - reflexivity.
  - left. reflexivity.
  - exact H.
Defined.

(** ** A call ends once *)

Lemma outcome_world_history_ids now id (w w' : World) :
  consistent w -> outcome_world now id w w' ->
  NoDup (map call_id (call_history w)) -> NoDup (map call_id (call_history w')).
Proof.
  intros [Hlive Hhist] Hout Hnd.
  destruct Hout as [ | s s' Hs Hch | s s' Hs Hch ]; cbn [call_history store]; auto.
  rewrite map_app. cbn [map]. apply NoDup_app. split; [ exact Hnd | split ].
  - intros x Hx Hin. apply list_elem_of_singleton in Hin. subst x.
    apply list_elem_of_fmap in Hx. destruct Hx as (h & Heq & Hh).
    rewrite Forall_forall in Hhist. destruct (Hhist h Hh) as [Hnone _].
    destruct Hch as (Hcid & _). destruct (Hlive id s Hs) as [Hid _].
    cbn in Heq. rewrite Hcid, Hid in Heq. rewrite <- Heq in Hnone. congruence.
  - apply NoDup_singleton.
Qed.

(** X23: a call ends at most once: in every reachable state the records of
    the history have pairwise distinct call identifiers. *)
Theorem history_has_one_record_per_call nlu (w : World) :
  reachable nlu w -> NoDup (map call_id (call_history w)).
Proof.
  induction 1 as [ | w r Hr IH Hadm ].
  - constructor.
  - pose proof (reachable_consistent nlu w Hr) as Hcons.
    pose proof (step_frame nlu w r) as Hframe.
    destruct r as [new_id now caller | now id digit | ts now id x | now id ];
      try (eapply outcome_world_history_ids; eassumption).
    cbn [step]. rewrite start_call_world. exact IH.
Qed.

Lemma history_has_one_record_per_call_witness :
  NoDup (map call_id (call_history
           (step rule_based_nlu new_world (ReqEnd "t1" "c1")))).
Proof.
  apply (history_has_one_record_per_call rule_based_nlu).
  apply reach_step; [ apply new_world_reachable | exact I ].
Defined.

(** ** Which provider shape wins *)

(** X24: the Azure shape takes precedence. When the object has both
    ["callConnectionId"] and ["recognizeResult"], the latter an object with
    a non-empty ["text"], the task is created for that call and that text
    (if the call is live), whatever Twilio or generic fields the object
    also carries. *)
Theorem stt_azure_shape_wins d r id t (w : World) :
  Py.has_key "callConnectionId" d = true ->
  Py.has_key "recognizeResult" d = true ->
  Py.get "recognizeResult" d = JDict r ->
  Py.get "callConnectionId" d = JStr id ->
  Py.get "text" r = t -> Py.truthy t = true -> id <> "" ->
  stt_callback (JDict d) w =
    match active_calls w !! id with
    | Some _ => (Return "accepted", w, [{| task_call_id := id; task_transcript := t |}])
    | None => (Raise (HTTPException 404 (Msg "Call session not found")), w, [])
    end.
Proof.
  intros Hk1 Hk2 Hr Hid Ht Htruthy Hne.
  assert (Hmap : stt_map_payload d = Return (JStr id, t)).
  { unfold stt_map_payload. rewrite Hk1, Hk2, Hr, Hid, Ht. cbn [andb].
    destruct (Py.truthy t) eqn:E; [ | discriminate ].
    cbn [negb andb]. rewrite E. reflexivity. }
  unfold stt_callback. rewrite Hmap.
  assert (Py.truthy (JStr id) = true) as -> by (destruct id; [ congruence | reflexivity ]).
  rewrite Htruthy. reflexivity.
Qed.

Lemma stt_azure_shape_wins_witness :
  stt_callback
    (JDict [("CallSid", JStr "zz"); ("SpeechResult", JStr "bye");
            ("callConnectionId", JStr "c1");
            ("recognizeResult", JDict [("text", JStr "hello")])]) new_world
  = (Return "accepted", new_world,
     [{| task_call_id := "c1"; task_transcript := JStr "hello" |}]).
Proof.
  apply (stt_azure_shape_wins
           [("CallSid", JStr "zz"); ("SpeechResult", JStr "bye");
            ("callConnectionId", JStr "c1");
            ("recognizeResult", JDict [("text", JStr "hello")])]
           [("text", JStr "hello")] "c1" (JStr "hello") new_world);
    try reflexivity.
  discriminate.
Defined.

(** ** The classifier and the intent table *)

(** X25: every result of the rule based classifier has an entry in the
    intent table (the resolver's fallback is never needed for it), its
    confidence lies between 0.4 and 0.95, and the confidence is 0.4 exactly
    when the intent is unknown. *)
Theorem classifier_results_are_in_the_table text :
  let r := rule_based_nlu text in
  is_Some (INTENT_ACTION_MAP !! intent r)
  /\ (4 # 10 <= confidence r)%Q /\ (confidence r <= 95 # 100)%Q
  /\ (confidence r = 4 # 10 <-> intent r = "unknown").
Proof.
  intros r. subst r. unfold rule_based_nlu.
  set (t := PyStr.strip (PyStr.lower text)).
  repeat (destruct (any_in _ t);
          [ cbn [intent confidence];
            split; [ vm_compute; eauto | ];
            split; [ unfold Qle; cbn; lia | ];
            split; [ unfold Qle; cbn; lia | ];
            split; discriminate | ]).
  cbn [intent confidence]. split; [ vm_compute; eauto | ].
  split; [ unfold Qle; cbn; lia | ].
  split; [ unfold Qle; cbn; lia | ].
  split; reflexivity.
Qed.

(** ** The DTMF endpoint without an event loop *)

(** With a loop running the endpoint is [dtmf_endpoint]. *)
Lemma dtmf_endpoint_on_loop id digit (w : World) :
  dtmf_endpoint_on true id digit w = dtmf_endpoint id digit w.
Proof. reflexivity. Qed.

Lemma handle_digit_on_loop now id digit (w : World) :
  handle_digit_on true now id digit w = handle_digit now id digit w.
Proof. reflexivity. Qed.

(** A request that creates no task is served as it is with a loop. *)
Lemma dtmf_endpoint_served_without_tasks id digit (w : World) :
  snd (dtmf_endpoint id digit w) = [] ->
  dtmf_endpoint_served id digit w = dtmf_endpoint id digit w.
Proof.
  unfold dtmf_endpoint_served, dtmf_endpoint_on, dtmf_endpoint.
  destruct (active_calls w !! id) as [call|]; [ | reflexivity ].
  destruct ((current_menu call =? "flight_status") && PyStr.isdigit digit).
  { destruct (String.length _ =? 6)%nat; [ discriminate | reflexivity ]. }
  destruct (menu_option (current_menu call) digit) as [opt|]; [ | reflexivity ].
  destruct (opt_action opt =? "goto_menu").
  { destruct (opt_target opt) as [t|]; [ | reflexivity ].
    destruct (MENU_STRUCTURE !! t); [ discriminate | reflexivity ]. }
  destruct (opt_action opt =? "transfer_agent"); [ discriminate | ].
  destruct (opt_action opt =? "end_call"); [ discriminate | reflexivity ].
Qed.

(** The sixth character of the PNR, served: the buffer is emptied, then
    the first [create_task] raises. *)
Lemma dtmf_served_sixth_digit id digit call (w : World) :
  active_calls w !! id = Some call ->
  current_menu call = "flight_status" ->
  PyStr.isdigit digit = true ->
  String.length (pnr_buffer call +:+ digit) = 6 ->
  dtmf_endpoint_served id digit w =
    (Raise (RuntimeError "no running event loop"), store id (set_pnr_buffer "" call) w, []).
Proof.
  intros Hcall Hmenu Hdig Hlen. unfold dtmf_endpoint_served, dtmf_endpoint_on.
  rewrite Hcall, Hmenu, Hdig. rewrite String.eqb_refl. cbn [andb pnr_buffer set_pnr_buffer].
  apply Nat.eqb_eq in Hlen. rewrite Hlen. reflexivity.
Qed.

(** C5 at the failing input: the six digits "1" to "6" sent to the route as
    the server runs it (a plain [def] route, on a worker thread with no
    event loop), for a call in the flight status node with an empty buffer.
    The first five are answered with the digits to go; the sixth empties
    the buffer and raises [RuntimeError] at [asyncio.create_task]: no task
    is created, nothing is spoken, there is no hang-up, the call is still
    live in the flight status node and the history is still empty. Called
    where a loop is running, the same six digits complete the PNR: one
    speech task, one hang-up, one history record. *)
Theorem served_sixth_digit_raises :
  feed_digits_on false "t1" "c2" ["1"; "2"; "3"; "4"; "5"; "6"] pnr_world =
    ([Return (message_only "Received digit. 5 digits to go.");
      Return (message_only "Received digit. 4 digits to go.");
      Return (message_only "Received digit. 3 digits to go.");
      Return (message_only "Received digit. 2 digits to go.");
      Return (message_only "Received digit. 1 digits to go.");
      Raise (RuntimeError "no running event loop")],
     pnr_world, [])
  /\ active_calls pnr_world !! "c2" = Some pnr_session
  /\ current_menu pnr_session = "flight_status"
  /\ pnr_buffer pnr_session = ""
  /\ call_history pnr_world = []
  /\ feed_digits_on true "t1" "c2" ["1"; "2"; "3"; "4"; "5"; "6"] pnr_world =
       ([Return (message_only "Received digit. 5 digits to go.");
         Return (message_only "Received digit. 4 digits to go.");
         Return (message_only "Received digit. 3 digits to go.");
         Return (message_only "Received digit. 2 digits to go.");
         Return (message_only "Received digit. 1 digits to go.");
         Return {| reply_action := Some "pnr_lookup";
                   reply_message := "PNR 123456 is confirmed. Flight AI101 is on time." |}],
        {| active_calls := delete "c2" (active_calls pnr_world);
           call_history := [set_ended_at "t1" pnr_session] |},
        [PlayTts "c2" "PNR 123456 is confirmed. Flight AI101 is on time."; HangupCall "c2"]).
Proof.
  repeat split; vm_compute; reflexivity.
Qed.

(** X12: for a live call the DTMF endpoint never raises [KeyError] (every
    navigating option of the catalog names a node of the catalog). Where
    an event loop is running it always returns a reply. Served without a
    loop, it behaves the same on every request that creates no task, and
    on every request that would create one it raises [RuntimeError] at
    [asyncio.create_task] and creates none. *)
Theorem dtmf_fails_only_for_want_of_a_loop id digit call (w : World) :
  active_calls w !! id = Some call ->
  (exists reply, fst (fst (dtmf_endpoint_on true id digit w)) = Return reply)
  /\ ((snd (dtmf_endpoint_on true id digit w) = []
       /\ dtmf_endpoint_on false id digit w = dtmf_endpoint_on true id digit w)
      \/ (snd (dtmf_endpoint_on true id digit w) <> []
          /\ fst (fst (dtmf_endpoint_on false id digit w))
             = Raise (RuntimeError "no running event loop")
          /\ snd (dtmf_endpoint_on false id digit w) = [])).
Proof.
  intros Hcall. unfold dtmf_endpoint_on. rewrite Hcall.
  destruct ((current_menu call =? "flight_status") && PyStr.isdigit digit).
  { destruct (String.length _ =? 6)%nat; cbn.
    - split; [ eauto | right; repeat split; discriminate ].
    - split; [ eauto | left; split; reflexivity ]. }
  destruct (menu_option (current_menu call) digit) as [opt|] eqn:Hopt;
    [ | split; [ cbn; eauto | left; split; reflexivity ] ].
  destruct (opt_action opt =? "goto_menu") eqn:Hgoto.
  - apply String.eqb_eq in Hgoto.
    destruct (catalog_closed _ _ _ Hopt Hgoto) as (t & -> & node & ->). cbn.
    split; [ eauto | right; repeat split; discriminate ].
  - destruct (opt_action opt =? "transfer_agent"); cbn;
      [ split; [ eauto | right; repeat split; discriminate ] | ].
    destruct (opt_action opt =? "end_call"); cbn;
      [ split; [ eauto | right; repeat split; discriminate ]
      | split; [ eauto | left; split; reflexivity ] ].
Qed.

Lemma dtmf_fails_only_for_want_of_a_loop_witness :
  (exists reply, fst (fst (dtmf_endpoint_on true "c1" "1" new_world)) = Return reply)
  /\ fst (fst (dtmf_endpoint_on false "c1" "1" new_world))
     = Raise (RuntimeError "no running event loop").
Proof.
  destruct (dtmf_fails_only_for_want_of_a_loop "c1" "1" new_session new_world)
    as [Hret [[Hnone _] | (_ & Hraise & _)]].
  - vm_compute. reflexivity.
  - vm_compute in Hnone. discriminate Hnone.
  - split; [ exact Hret | exact Hraise ].
Defined.

(** ** The classifier on any text *)

Section AnyText.

#[local] Open Scope list_scope.

Variable str_lower : Uni.ustr -> Uni.ustr.
Variable is_space : N -> bool.
Variable is_decimal : N -> bool.

Lemma u_starts_with_spec x : forall t,
  Uni.starts_with x t = true <-> exists post, t = (x ++ post)%list.
Proof.
  induction x as [ | a x IH ]; intros t; cbn [Uni.starts_with].
  - split; [ intros _; exists t; reflexivity | reflexivity ].
  - destruct t as [ | c t ].
    + split; [ discriminate | intros [post H]; discriminate H ].
    + rewrite andb_true_iff, N.eqb_eq, IH. split.
      * intros [-> [post ->]]. exists post. reflexivity.
      * intros [post H]. injection H as -> ->. eauto.
Qed.

Lemma u_contains_spec x t : Uni.contains x t = true <-> occurs x t.
Proof.
  unfold occurs. induction t as [ | c t IH ]; cbn [Uni.contains];
    rewrite orb_true_iff, u_starts_with_spec.
  - split.
    + intros [[post H] | H]; [ exists [], post; exact H | discriminate H ].
    + intros (pre & post & H). left. symmetry in H.
      apply app_eq_nil in H. destruct H as [-> H].
      apply app_eq_nil in H. destruct H as [-> ->]. exists []. reflexivity.
  - rewrite IH. split.
    + intros [[post H] | (pre & post & H)].
      * exists [], post. exact H.
      * exists (c :: pre), post. rewrite H. reflexivity.
    + intros (pre & post & H). destruct pre as [ | p pre ].
      * left. exists post. exact H.
      * right. injection H as -> ->. exists pre, post. reflexivity.
Qed.

Lemma u_any_in_spec kws t :
  Uni.any_in kws t = true <-> exists kw, In kw kws /\ occurs (Uni.lit kw) t.
Proof.
  unfold Uni.any_in. rewrite existsb_exists. split.
  - intros (kw & Hin & Hc). exists kw. split; [ exact Hin | apply u_contains_spec; exact Hc ].
  - intros (kw & Hin & Hc). exists kw. split; [ exact Hin | apply u_contains_spec; exact Hc ].
Qed.

Lemma u_find_first_group groups t :
  first_group_in groups t (find (fun g => Uni.any_in (group_keywords g) t) groups).
Proof.
  induction groups as [ | g gs IH ]; cbn [find]; [ constructor | ].
  destruct (Uni.any_in (group_keywords g) t) eqn:E.
  - exists [], gs. split; [ reflexivity | split; [ | constructor ] ].
    apply u_any_in_spec. exact E.
  - assert (Hno : ~ group_occurs g t).
    { intros H. apply u_any_in_spec in H. congruence. }
    destruct (find _ gs) as [g'|]; cbn [first_group_in] in *.
    + destruct IH as (earlier & later & -> & Hocc & Hearlier).
      exists (g :: earlier), later. split; [ reflexivity | split; [ exact Hocc | ] ].
      constructor; assumption.
    + constructor; assumption.
Qed.

Lemma u_lstrip_spec u :
  exists l, u = (l ++ Uni.lstrip is_space u)%list
            /\ forallb is_space l = true
            /\ forall c, head (Uni.lstrip is_space u) = Some c -> is_space c = false.
Proof.
  induction u as [ | c u (l & Hu & Hl & Hhead) ]; cbn [Uni.lstrip].
  - exists []. repeat split. discriminate.
  - destruct (is_space c) eqn:Hc.
    + exists (c :: l). cbn. rewrite Hc, Hl. repeat split; auto. congruence.
    + exists []. repeat split. cbn. intros c' [= <-]. exact Hc.
Qed.

Lemma u_rstrip_spec v :
  exists r, v = (Uni.rstrip is_space v ++ r)%list
            /\ forallb is_space r = true
            /\ (forall c, last (Uni.rstrip is_space v) = Some c -> is_space c = false)
            /\ (forall c, head (Uni.rstrip is_space v) = Some c -> head v = Some c).
Proof.
  induction v as [ | c v (r & Hv & Hr & Hlast & Hhead) ]; cbn [Uni.rstrip].
  - exists []. repeat split; auto; discriminate.
  - destruct (Uni.rstrip is_space v) as [ | c' r' ] eqn:E.
    + cbn in Hv. subst r. destruct (is_space c) eqn:Hc.
      * exists (c :: v). cbn. rewrite Hc, Hr. repeat split; auto; discriminate.
      * exists v. repeat split; auto. cbn. intros c0 [= <-]. exact Hc.
    + exists r. split; [ rewrite Hv at 1; reflexivity | ].
      split; [ exact Hr | split; [ exact Hlast | ] ]. cbn. auto.
Qed.

(** [strip] removes the white space at both ends and nothing else. *)
Lemma u_strip_spec u : trimmed_of is_space u (Uni.strip is_space u).
Proof.
  unfold Uni.strip. destruct (u_lstrip_spec u) as (l & Hu & Hl & Hhead).
  destruct (u_rstrip_spec (Uni.lstrip is_space u)) as (r & Hv & Hr & Hlast & Hh).
  exists l, r. split; [ | repeat split; auto ].
  rewrite <- Hv. exact Hu.
Qed.

Lemma u_findall_go_digits r : forall cur s,
  forallb is_decimal r = true ->
  Uni.findall_digits_go is_decimal cur (r ++ s)
  = Uni.findall_digits_go is_decimal (cur ++ r) s.
Proof.
  induction r as [ | c r IH ]; intros cur s Hr.
  - rewrite app_nil_r. reflexivity.
  - cbn in Hr. apply andb_true_iff in Hr. destruct Hr as [Hc Hr].
    cbn [app Uni.findall_digits_go]. rewrite Hc, IH by assumption.
    rewrite <- app_assoc. reflexivity.
Qed.

Lemma u_findall_go_gap g : forall cur s,
  forallb (fun c => negb (is_decimal c)) g = true -> g <> [] ->
  Uni.findall_digits_go is_decimal cur (g ++ s)
  = (Uni.flush cur ++ Uni.findall_digits_go is_decimal [] s)%list.
Proof.
  induction g as [ | c g IH ]; intros cur s Hg Hne; [ congruence | ].
  cbn in Hg. apply andb_true_iff in Hg. destruct Hg as [Hc Hg].
  apply negb_true_iff in Hc. cbn [app Uni.findall_digits_go]. rewrite Hc.
  destruct g as [ | c' g' ]; [ reflexivity | ].
  rewrite (IH [] s Hg) by discriminate. reflexivity.
Qed.

Lemma u_findall_go_flat runs :
  u_well_segmented is_decimal runs ->
  Uni.findall_digits_go is_decimal [] (uflat runs) = map fst runs.
Proof.
  induction runs as [ | [r g] rest IH ]; intros Hwf; [ reflexivity | ].
  destruct Hwf as (Hr & Hd & Hg & Hsep & Hrest). cbn [uflat map fst].
  rewrite u_findall_go_digits by assumption. cbn [app].
  destruct g as [ | c g ].
  - destruct rest as [ | x rest ]; [ | exfalso; apply Hsep; [ discriminate | reflexivity ] ].
    cbn. destruct r; [ congruence | reflexivity ].
  - rewrite u_findall_go_gap by (assumption || discriminate).
    rewrite IH by assumption. destruct r; [ congruence | reflexivity ].
Qed.

(** [re.findall(r"\d+", t)] returns the runs of any segmentation of [t]. *)
Lemma u_findall_segmentation t g0 runs :
  u_segmentation is_decimal t g0 runs -> Uni.findall_digits is_decimal t = map fst runs.
Proof.
  intros (-> & Hg & Hwf). unfold Uni.findall_digits.
  destruct g0 as [ | c g ].
  - apply u_findall_go_flat. assumption.
  - rewrite u_findall_go_gap by (assumption || discriminate).
    rewrite u_findall_go_flat by assumption. reflexivity.
Qed.

Lemma u_segmentation_exists t : exists g0 runs, u_segmentation is_decimal t g0 runs.
Proof.
  assert (H : exists d g runs,
             t = (d ++ g ++ uflat runs)%list
             /\ forallb is_decimal d = true
             /\ forallb (fun c => negb (is_decimal c)) g = true
             /\ (runs <> [] -> g <> []) /\ u_well_segmented is_decimal runs).
  { induction t as [ | c t IH ].
    - exists [], [], []. cbn. repeat split; auto.
    - destruct IH as (d & g & runs & -> & Hd & Hg & Hsep & Hwf).
      destruct (is_decimal c) eqn:Hc.
      + exists (c :: d), g, runs. cbn. rewrite Hc. repeat split; auto.
      + destruct d as [ | c' d' ].
        * exists [], (c :: g), runs. cbn. rewrite Hc. repeat split; auto; discriminate.
        * exists [], [c], ((c' :: d', g) :: runs).
          cbn [uflat u_well_segmented forallb app]. rewrite Hc.
          repeat split; auto; discriminate. }
  destruct H as (d & g & runs & -> & Hd & Hg & Hsep & Hwf).
  destruct d as [ | c d ].
  - exists g, runs. repeat split; auto.
  - exists [], ((c :: d, g) :: runs). cbn [uflat u_well_segmented forallb app].
    repeat split; auto; discriminate.
Qed.

Lemma u_find_six ds :
  first_of_length_six ds (find (fun d => (length d =? 6)%nat) ds).
Proof.
  induction ds as [ | d ds IH ]; [ constructor | ].
  change (find (fun d => (length d =? 6)%nat) (d :: ds))
    with (if (length d =? 6)%nat then Some d
          else find (fun d => (length d =? 6)%nat) ds).
  destruct (length d =? 6)%nat eqn:H6;
    [ apply Nat.eqb_eq in H6 | apply Nat.eqb_neq in H6 ].
  - exists [], ds. repeat split; auto.
  - revert IH. generalize (find (fun d => (length d =? 6)%nat) ds).
    intros [p|] IH; unfold first_of_length_six in *.
    + destruct IH as (before & after & -> & Hp & Hbefore).
      exists (d :: before), after. repeat split; auto.
    + constructor; assumption.
Qed.

(** C6: for every text and whatever the Unicode tables, the classifier
    works on [t], the lower-cased text without its leading and trailing
    white space; the groups are tried in the order booking, flight status,
    agent transfer, greeting, end call; the intent and confidence are those
    of the first group a keyword of which occurs in [t]; when no keyword
    of any group occurs in [t] the result is unknown with confidence 0.4
    and no entities; entities are empty except for flight status, where
    [pnr] is the first of the maximal digit runs of [t] that has exactly
    six characters, and [None] when no run has. *)
Theorem classifier_meets_its_description text :
  let t := Uni.strip is_space (str_lower text) in
  let r := Uni.rule_based_nlu str_lower is_space is_decimal text in
  map group_intent keyword_groups
  = ["booking_enquiry"; "flight_status"; "agent_transfer"; "greeting"; "end_call"]
  /\ trimmed_of is_space (str_lower text) t
  /\ exists o,
       first_group_in keyword_groups t o
       /\ match o with
          | Some g =>
              Uni.intent r = group_intent g
              /\ Uni.confidence r = group_confidence g
              /\ (group_intent g <> "flight_status" -> Uni.entities r = ∅)
              /\ (group_intent g = "flight_status" ->
                  (exists g0 runs, u_segmentation is_decimal t g0 runs)
                  /\ forall g0 runs, u_segmentation is_decimal t g0 runs ->
                       exists p,
                         first_of_length_six (map fst runs) p
                         /\ Uni.entities r = {[ "pnr" := p ]})
          | None =>
              r = {| Uni.intent := "unknown"; Uni.confidence := 4 # 10;
                     Uni.entities := ∅ |}
          end.
Proof.
  intros t r. split; [ reflexivity | split; [ apply u_strip_spec | ] ].
  exists (find (fun g => Uni.any_in (group_keywords g) t) keyword_groups).
  split; [ apply u_find_first_group | ].
  subst r. unfold Uni.rule_based_nlu. fold t.
  cbn [find keyword_groups group_keywords].
  destruct (Uni.any_in _ t).
  { cbn. repeat split; auto; discriminate. }
  destruct (Uni.any_in _ t).
  { cbn [Uni.intent Uni.confidence Uni.entities group_intent group_confidence].
    repeat split; auto; try congruence.
    - apply u_segmentation_exists.
    - intros g0 runs Hseg. rewrite (u_findall_segmentation t g0 runs Hseg).
      eexists. split; [ apply u_find_six | reflexivity ]. }
  destruct (Uni.any_in _ t).
  { cbn. repeat split; auto; discriminate. }
  destruct (Uni.any_in _ t).
  { cbn. repeat split; auto; discriminate. }
  destruct (Uni.any_in _ t).
  { cbn. repeat split; auto; discriminate. }
  reflexivity.
Qed.

Lemma u_well_segmented_decimal runs :
  u_well_segmented is_decimal runs ->
  Forall (fun r => forallb is_decimal r = true) (map fst runs).
Proof.
  induction runs as [ | [r g] rest IH ]; intros Hwf; [ constructor | ].
  destruct Hwf as (_ & Hd & _ & _ & Hrest). cbn [map fst]. constructor; auto.
Qed.

(** X18: for every text and whatever the Unicode tables, whenever the
    classifier returns a [pnr] entity the intent is flight status and the
    entity consists of exactly six characters, each a decimal digit in the
    sense of [\d]. *)
Theorem pnr_entity_is_six_decimal_digits text p :
  Uni.entity_get "pnr" (Uni.rule_based_nlu str_lower is_space is_decimal text) = Some p ->
  Uni.intent (Uni.rule_based_nlu str_lower is_space is_decimal text) = "flight_status"
  /\ length p = 6 /\ forallb is_decimal p = true.
Proof.
  unfold Uni.rule_based_nlu. set (t := Uni.strip is_space (str_lower text)).
  destruct (Uni.any_in _ t); [ intros H; discriminate H | ].
  destruct (Uni.any_in _ t).
  { unfold Uni.entity_get. cbn [Uni.entities Uni.intent]. rewrite lookup_singleton_eq.
    intros Hfind. apply find_some in Hfind. destruct Hfind as [Hin Hlen].
    split; [ reflexivity | split ].
    - apply Nat.eqb_eq. exact Hlen.
    - destruct (u_segmentation_exists t) as (g0 & runs & Hseg).
      rewrite (u_findall_segmentation t g0 runs Hseg) in Hin.
      pose proof (u_well_segmented_decimal runs (proj2 (proj2 Hseg))) as Hall.
      rewrite List.Forall_forall in Hall. apply Hall. exact Hin. }
  repeat (destruct (Uni.any_in _ t); [ intros H; discriminate H | ]).
  intros H; discriminate H.
Qed.

End AnyText.

Lemma pnr_entity_is_six_decimal_digits_witness :
  length [1633; 1634; 1635; 1636; 1637; 1638]%N = 6
  /\ forallb arabic_decimal_cp [1633; 1634; 1635; 1636; 1637; 1638]%N = true.
Proof.
  destruct (pnr_entity_is_six_decimal_digits (map ascii_lower_cp) ascii_space_cp
              arabic_decimal_cp
              (Uni.lit "Flight " ++ [1633; 1634; 1635; 1636; 1637; 1638]%N)%list
              [1633; 1634; 1635; 1636; 1637; 1638]%N) as (_ & H).
  - vm_compute. reflexivity.
  - exact H.
Defined.

Example classifier_on_a_text_of_any_characters :
  Uni.rule_based_nlu (map ascii_lower_cp) ascii_space_cp arabic_decimal_cp
    (Uni.lit "  My PNR is " ++ [1633; 1634; 1635; 1636; 1637; 1638]%N ++ Uni.lit " ")%list
  = {| Uni.intent := "flight_status"; Uni.confidence := 85 # 100;
       Uni.entities := {[ "pnr" := Some [1633; 1634; 1635; 1636; 1637; 1638]%N ]} |}.
Proof. vm_compute. reflexivity. Qed.

(** ** The ASCII model is an instance *)

Section AsciiInstance.

#[local] Open Scope list_scope.

Lemma lit_cons c s : Uni.lit (String c s) = N_of_ascii c :: Uni.lit s.
Proof. reflexivity. Qed.

Lemma lit_app (a b : string) : Uni.lit (a +:+ b) = Uni.lit a ++ Uni.lit b.
Proof.
  induction a as [ | c a IH ]; [ reflexivity | ].
  rewrite app_cons, !lit_cons, IH. reflexivity.
Qed.

Lemma lit_length (d : string) : length (Uni.lit d) = String.length d.
Proof.
  induction d as [ | c d IH ]; [ reflexivity | ].
  rewrite lit_cons. cbn. rewrite IH. reflexivity.
Qed.

Lemma lower_char_cp c : N_of_ascii (PyStr.lower_char c) = ascii_lower_cp (N_of_ascii c).
Proof. destruct c as [[] [] [] [] [] [] [] []]; vm_compute; reflexivity. Qed.

Lemma is_space_cp c : PyStr.is_space c = ascii_space_cp (N_of_ascii c).
Proof. destruct c as [[] [] [] [] [] [] [] []]; vm_compute; reflexivity. Qed.

Lemma is_digit_cp c : PyStr.is_digit c = ascii_decimal_cp (N_of_ascii c).
Proof. destruct c as [[] [] [] [] [] [] [] []]; vm_compute; reflexivity. Qed.

Lemma lit_lower s : Uni.lit (PyStr.lower s) = map ascii_lower_cp (Uni.lit s).
Proof.
  induction s as [ | c s IH ]; [ reflexivity | ].
  cbn [PyStr.lower]. rewrite !lit_cons, IH, lower_char_cp. reflexivity.
Qed.

Lemma lit_lstrip s : Uni.lit (PyStr.lstrip s) = Uni.lstrip ascii_space_cp (Uni.lit s).
Proof.
  induction s as [ | c s IH ]; [ reflexivity | ].
  cbn [PyStr.lstrip]. rewrite lit_cons. cbn [Uni.lstrip]. rewrite <- is_space_cp.
  destruct (PyStr.is_space c); [ exact IH | apply lit_cons ].
Qed.

Lemma lit_rstrip s : Uni.lit (PyStr.rstrip s) = Uni.rstrip ascii_space_cp (Uni.lit s).
Proof.
  induction s as [ | c s IH ]; [ reflexivity | ].
  cbn [PyStr.rstrip]. rewrite lit_cons. cbn [Uni.rstrip].
  rewrite <- IH, <- is_space_cp.
  destruct (PyStr.rstrip s) as [ | c' r ].
  - cbn [Uni.lit list_ascii_of_string map]. destruct (PyStr.is_space c); reflexivity.
  - rewrite !lit_cons. reflexivity.
Qed.

Lemma lit_strip s : Uni.lit (PyStr.strip s) = Uni.strip ascii_space_cp (Uni.lit s).
Proof. unfold PyStr.strip, Uni.strip. rewrite lit_rstrip, lit_lstrip. reflexivity. Qed.

Lemma lit_prefix x : forall t,
  String.prefix x t = Uni.starts_with (Uni.lit x) (Uni.lit t).
Proof.
  induction x as [ | a x IH ]; intros t; [ destruct t; reflexivity | ].
  destruct t as [ | c t ]; [ reflexivity | ].
  rewrite !lit_cons. cbn [String.prefix Uni.starts_with].
  destruct (ascii_dec a c) as [-> | Hne].
  - rewrite N.eqb_refl. apply IH.
  - assert ((N_of_ascii a =? N_of_ascii c)%N = false) as ->; [ | reflexivity ].
    apply N.eqb_neq. intros E. apply Hne.
    rewrite <- (ascii_N_embedding a), <- (ascii_N_embedding c), E. reflexivity.
Qed.

Lemma lit_contains x t : PyStr.contains x t = Uni.contains (Uni.lit x) (Uni.lit t).
Proof.
  induction t as [ | c t IH ].
  - cbn [PyStr.contains Uni.contains]. rewrite lit_prefix. reflexivity.
  - rewrite contains_cons, lit_prefix, IH. reflexivity.
Qed.

Lemma lit_any_in kws t : any_in kws t = Uni.any_in kws (Uni.lit t).
Proof.
  unfold any_in, Uni.any_in. induction kws as [ | x kws IH ]; [ reflexivity | ].
  cbn [existsb]. rewrite lit_contains, IH. reflexivity.
Qed.

Lemma lit_flush cur : map Uni.lit (PyStr.flush cur) = Uni.flush (Uni.lit cur).
Proof. destruct cur; reflexivity. Qed.

Lemma lit_findall_go s : forall cur,
  map Uni.lit (PyStr.findall_digits_go cur s)
  = Uni.findall_digits_go ascii_decimal_cp (Uni.lit cur) (Uni.lit s).
Proof.
  induction s as [ | c s IH ]; intros cur.
  - apply lit_flush.
  - rewrite lit_cons. cbn [PyStr.findall_digits_go Uni.findall_digits_go].
    rewrite <- is_digit_cp. destruct (PyStr.is_digit c).
    + rewrite IH, lit_app. reflexivity.
    + rewrite map_app, IH, lit_flush. reflexivity.
Qed.

Lemma lit_find_six ds :
  find (fun d => (length d =? 6)%nat) (map Uni.lit ds)
  = option_map Uni.lit (find (fun d => (String.length d =? 6)%nat) ds).
Proof.
  induction ds as [ | d ds IH ]; [ reflexivity | ].
  cbn [map find]. rewrite lit_length. destruct (String.length d =? 6)%nat; [ reflexivity | exact IH ].
Qed.

(** The classifier on ASCII text of the first part is the classifier on
    any text at the ASCII tables: same intent, same confidence, and the
    entities of the one are those of the other, as code points. *)
Lemma rule_based_nlu_is_the_ascii_instance text :
  let u := Uni.rule_based_nlu (map ascii_lower_cp) ascii_space_cp ascii_decimal_cp
             (Uni.lit text) in
  let r := rule_based_nlu text in
  Uni.intent u = intent r
  /\ Uni.confidence u = confidence r
  /\ Uni.entities u = (option_map Uni.lit) <$> entities r.
Proof.
  intros u r. subst u r. unfold Uni.rule_based_nlu, rule_based_nlu.
  rewrite <- lit_lower, <- lit_strip.
  set (t := PyStr.strip (PyStr.lower text)).
  rewrite <- !lit_any_in.
  destruct (any_in _ t); [ cbn; rewrite fmap_empty; auto | ].
  destruct (any_in _ t).
  { cbn [Uni.intent Uni.confidence Uni.entities intent confidence entities].
    repeat split. rewrite map_fmap_singleton. f_equal.
    unfold Uni.findall_digits, PyStr.findall_digits.
    change (@nil N) with (Uni.lit ""). rewrite <- lit_findall_go. apply lit_find_six. }
  repeat (destruct (any_in _ t); [ cbn; rewrite fmap_empty; auto | ]).
  cbn. rewrite fmap_empty. auto.
Qed.

(** On a text of ASCII characters the tables matter only through what
    they say of ASCII characters. *)
Variable str_lower : Uni.ustr -> Uni.ustr.
Variable is_space : N -> bool.
Variable is_decimal : N -> bool.

Hypothesis lower_on_ascii :
  forall u, ascii_only u -> str_lower u = map ascii_lower_cp u.
Hypothesis space_on_ascii : forall n, (n < 128)%N -> is_space n = ascii_space_cp n.
Hypothesis decimal_on_ascii : forall n, (n < 128)%N -> is_decimal n = ascii_decimal_cp n.

Lemma ascii_lower_stays_ascii u : ascii_only u -> ascii_only (map ascii_lower_cp u).
Proof.
  unfold ascii_only. intros H. apply Forall_map. eapply Forall_impl; [ exact H | ].
  intros n Hn. cbn. unfold ascii_lower_cp.
  destruct ((65 <=? n) && (n <=? 90))%N eqn:E; [ | exact Hn ].
  apply andb_true_iff in E. destruct E as [_ E]. apply N.leb_le in E. lia.
Qed.

Lemma lstrip_on_ascii u :
  ascii_only u ->
  Uni.lstrip is_space u = Uni.lstrip ascii_space_cp u
  /\ ascii_only (Uni.lstrip ascii_space_cp u).
Proof.
  unfold ascii_only. induction 1 as [ | c u Hc Hu IH ]; [ split; [ reflexivity | constructor ] | ].
  cbn [Uni.lstrip]. rewrite space_on_ascii by assumption.
  destruct (ascii_space_cp c); [ exact IH | split; [ reflexivity | constructor; assumption ] ].
Qed.

Lemma rstrip_on_ascii u :
  ascii_only u ->
  Uni.rstrip is_space u = Uni.rstrip ascii_space_cp u
  /\ ascii_only (Uni.rstrip ascii_space_cp u).
Proof.
  unfold ascii_only. induction 1 as [ | c u Hc Hu [IH1 IH2] ]; [ split; [ reflexivity | constructor ] | ].
  cbn [Uni.rstrip]. rewrite IH1, space_on_ascii by assumption.
  split; [ reflexivity | ].
  destruct (Uni.rstrip ascii_space_cp u) as [ | c' r ].
  - destruct (ascii_space_cp c); repeat constructor; assumption.
  - constructor; assumption.
Qed.

Lemma findall_on_ascii u : forall cur,
  ascii_only u ->
  Uni.findall_digits_go is_decimal cur u = Uni.findall_digits_go ascii_decimal_cp cur u.
Proof.
  unfold ascii_only. induction u as [ | c u IH ]; intros cur Hu; [ reflexivity | ].
  apply Forall_cons in Hu. destruct Hu as [Hc Hu].
  cbn [Uni.findall_digits_go]. rewrite decimal_on_ascii by assumption.
  rewrite !IH by assumption. reflexivity.
Qed.

(** Hence, if Python's tables are as the ASCII ones on ASCII characters,
    the classifier on an ASCII text is the one of the first part. *)
Lemma rule_based_nlu_on_ascii_text u :
  ascii_only u ->
  Uni.rule_based_nlu str_lower is_space is_decimal u
  = Uni.rule_based_nlu (map ascii_lower_cp) ascii_space_cp ascii_decimal_cp u.
Proof.
  intros Hu. unfold Uni.rule_based_nlu, Uni.strip.
  rewrite lower_on_ascii by assumption.
  pose proof (ascii_lower_stays_ascii u Hu) as Hl.
  destruct (lstrip_on_ascii _ Hl) as [-> Hl'].
  destruct (rstrip_on_ascii _ Hl') as [-> Ht].
  unfold Uni.findall_digits. rewrite findall_on_ascii by assumption. reflexivity.
Qed.

End AsciiInstance.

Example lit_of_a_keyword : Uni.lit "hi" = [104; 105]%N.
Proof. reflexivity. Qed.

(** ** Frames of the served endpoint and of the webhook's task *)

(** The route served without a loop, and the handler on any transcript
    object, change the state within the same frame as the other requests;
    the invariants of the reachable states are kept by them too. *)
Lemma dtmf_endpoint_served_frame now id digit (w : World) :
  outcome_world now id w (snd (fst (dtmf_endpoint_served id digit w))).
Proof.
  unfold dtmf_endpoint_served, dtmf_endpoint_on.
  destruct (active_calls w !! id) as [call|] eqn:Hcall; [ | constructor ].
  destruct ((current_menu call =? "flight_status") && PyStr.isdigit digit).
  - destruct (String.length _ =? 6)%nat; cbn; eapply ow_changed; eauto with frame.
    changed_field.
  - destruct (menu_option (current_menu call) digit) as [opt|]; [ | constructor ].
    destruct (opt_action opt =? "goto_menu").
    { destruct (opt_target opt) as [target|]; [ | constructor ].
      destruct (MENU_STRUCTURE !! target); cbn; eapply ow_changed; eauto with frame. }
    destruct (opt_action opt =? "transfer_agent"); [ constructor | ].
    destruct (opt_action opt =? "end_call"); constructor.
Qed.

Lemma changed_append_turn_value v ts s : changed s (append_turn_value v ts s).
Proof. changed_field. Qed.

Lemma handle_transcribed_value_frame nlu ts now id v (w : World) :
  outcome_world now id w (snd (fst (handle_transcribed_value nlu ts now id v w))).
Proof.
  destruct v; try apply handle_transcribed_text_frame;
    unfold handle_transcribed_value;
    (destruct (active_calls w !! id) as [session|] eqn:Hs; [ | constructor ]);
    cbn [fst snd]; eapply ow_changed; eauto using changed_append_turn_value.
Qed.

Lemma served_requests_keep_consistency nlu ts now id x v (w : World) :
  consistent w ->
  consistent (snd (fst (dtmf_endpoint_served id x w)))
  /\ consistent (snd (fst (handle_transcribed_value nlu ts now id v w))).
Proof.
  intros Hc. split.
  - eapply (outcome_world_consistent now); [ exact Hc | apply dtmf_endpoint_served_frame ].
  - eapply outcome_world_consistent; [ exact Hc | apply handle_transcribed_value_frame ].
Qed.
